(** * Session-based authentication and authorisation of [backend/server.py]

    A shallow embedding of the request handlers of the FastAPI backend and
    of the three MongoDB collections they work on ([db.users],
    [db.sessions], [db.posts]), followed by the properties of the
    authentication core: session resolution and expiry, login, logout,
    the admin guard, user management with its cascades, and the bootstrap
    of the default administrator. *)

From Stdlib Require Import ZArith DecimalString.
From Stdlib Require DecimalZ DecimalPos.
From stdpp Require Import base option strings pretty list gmap fin_maps.

Local Open Scope Z_scope.

(** ** Documents

    A MongoDB document, like the Python dict the driver hands back, is a
    finite map from field names to values.  The handlers only ever store
    strings (identifiers, names, hashes, ISO-8601 timestamps), booleans
    ([is_admin]) and the [_id] that the driver adds on insertion. *)

Inductive value :=
  | VStr (s : string)
  | VBool (b : bool)
  | VOid (n : nat).

#[global] Instance value_eq_dec : EqDecision value.
Proof. solve_decision. Defined.

Abbreviation doc := (gmap string value).

(** A query filter [{k1: v1, ...}] lists the fields a document must carry
    with exactly these values; [{}] is the empty list. *)
Abbreviation query := (list (string * value)).

(** A projection [{k1: 0, ...}] lists the fields left out of the result. *)
Abbreviation projection := (list string).

(** Python truthiness of the values and dicts the handlers test. *)
Definition truthy (v : value) : bool :=
  match v with
  | VStr s => negb (bool_decide (s = EmptyString))
  | VBool b => b
  | VOid _ => true
  end.

Definition truthy_str (s : option string) : bool :=
  match s with
  | Some s => negb (bool_decide (s = EmptyString))
  | None => false
  end.

Definition truthy_doc (d : option doc) : bool :=
  match d with
  | Some d => negb (bool_decide (d = ∅))
  | None => false
  end.

(** [d.get(k)] used as a condition. *)
Definition get_truthy (d : doc) (k : string) : bool :=
  match d !! k with
  | Some v => truthy v
  | None => false
  end.

(** ** Collections

    A collection is the list of its documents in insertion order:
    [find_one], [delete_one] and [update_one] act on the first match,
    and nothing in the database forbids two documents with equal fields. *)

Definition matches (q : query) (d : doc) : bool :=
  forallb (λ kv, bool_decide (d !! kv.1 = Some kv.2)) q.

Definition project (p : projection) (d : doc) : doc :=
  foldr delete d p.

Definition find_first (q : query) (l : list doc) : option doc :=
  List.find (matches q) l.

Fixpoint remove_first (q : query) (l : list doc) : list doc :=
  match l with
  | [] => []
  | d :: l' => if matches q d then l' else d :: remove_first q l'
  end.

Definition remove_all (q : query) (l : list doc) : list doc :=
  List.filter (λ d, negb (matches q d)) l.

Fixpoint set_first (q : query) (k : string) (v : value) (l : list doc)
  : list doc :=
  match l with
  | [] => []
  | d :: l' =>
      if matches q d then <[k := v]> d :: l' else d :: set_first q k v l'
  end.

Definition count_matches (q : query) (l : list doc) : nat :=
  length (List.filter (matches q) l).

(** ** The world

    The database, and [tick]: the number of calls made so far to the
    sources the program does not control (the clock, [uuid.uuid4],
    [bcrypt.gensalt], the driver's ObjectId generator). *)

Inductive coll := Users | Sessions | Posts.

Record world := World {
  users : list doc;
  sessions : list doc;
  posts : list doc;
  tick : nat
}.

Definition db_get (c : coll) (w : world) : list doc :=
  match c with
  | Users => users w
  | Sessions => sessions w
  | Posts => posts w
  end.

Definition db_set (c : coll) (l : list doc) (w : world) : world :=
  match c with
  | Users => World l (sessions w) (posts w) (tick w)
  | Sessions => World (users w) l (posts w) (tick w)
  | Posts => World (users w) (sessions w) l (tick w)
  end.

Definition next_tick (w : world) : world :=
  World (users w) (sessions w) (posts w) (S (tick w)).

(** ** Exceptions and the handler monad

    A handler runs in a world and ends in a value or in an exception; what
    it wrote to the database before an exception stays written. *)

Inductive exn :=
  | HTTPException (status_code : Z) (detail : string)
  | KeyError (key : string)
  | TypeError
  | ValueError
  | AttributeError.

Definition M (A : Type) : Type := world → (exn + A) * world.

#[global] Instance M_ret : MRet M := λ A a w, (inr a, w).

#[global] Instance M_bind : MBind M := λ A B f m w,
  match m w with
  | (inl e, w') => (inl e, w')
  | (inr a, w') => f a w'
  end.

Definition raise {A} (e : exn) : M A := λ w, (inl e, w).

(** [d[k]] *)
Definition getitem (d : doc) (k : string) : M value :=
  match d !! k with
  | Some v => mret v
  | None => raise (KeyError k)
  end.

(** Reading a source outside the program: the [tick]-th answer of [f]. *)
Definition ask {A} (f : nat → A) : M A :=
  λ w, (inr (f (tick w)), next_tick w).

(** The motor calls. *)

Definition find_one (c : coll) (q : query) (p : projection)
  : M (option doc) :=
  λ w, (inr (project p <$> find_first q (db_get c w)), w).

Definition find_to_list (c : coll) (q : query) (p : projection) (n : nat)
  : M (list doc) :=
  λ w, (inr (take n (project p <$> List.filter (matches q) (db_get c w))), w).

(** [insert_one] adds an [_id] to a dict that has none, in place, and
    stores a copy; the dict as it is afterwards is returned. *)
Definition insert_one (c : coll) (d : doc) : M doc :=
  λ w,
    match d !! "_id" with
    | Some _ => (inr d, db_set c (db_get c w ++ [d]) w)
    | None =>
        let d' := <["_id" := VOid (tick w)]> d in
        (inr d', next_tick (db_set c (db_get c w ++ [d']) w))
    end.

(** [delete_one(q).deleted_count] *)
Definition delete_one (c : coll) (q : query) : M nat :=
  λ w, (inr (if find_first q (db_get c w) is Some _ then 1%nat else 0%nat),
        db_set c (remove_first q (db_get c w)) w).

Definition delete_many (c : coll) (q : query) : M nat :=
  λ w, (inr (count_matches q (db_get c w)),
        db_set c (remove_all q (db_get c w)) w).

(** [update_one(q, {"$set": {k: v}}).matched_count] *)
Definition update_one (c : coll) (q : query) (k : string) (v : value)
  : M nat :=
  λ w, (inr (if find_first q (db_get c w) is Some _ then 1%nat else 0%nat),
        db_set c (set_first q k v (db_get c w)) w).

(** ** Request bodies and cookies *)

Module UserLogin.
Record t := Build { username : string; password : string }.
End UserLogin.

Module UserCreate.
Record t := Build { username : string; password : string }.
End UserCreate.

Module UserPasswordUpdate.
Record t := Build { new_password : string }.
End UserPasswordUpdate.

Module PostCreate.
Record t := Build { content : string }.
End PostCreate.

(** What a handler asks the framework to do with the session cookie. *)
Inductive cookie :=
| set_cookie (key value : string) (httponly : bool) (max_age : Z)
    (samesite : string)
| delete_cookie (key : string).

(** Session expiry time (24 hours) *)
Definition SESSION_EXPIRY_HOURS : Z := 24.

(** [timedelta(hours=h)], in microseconds, the resolution of [datetime]. *)
Definition timedelta_hours (h : Z) : Z := h * 3600 * 1000000.

(** ** The fixed answers of the handlers *)

Definition invalid_credentials : exn :=
  HTTPException 401 "Credenziali non valide".

Definition logged_out : doc * cookie :=
  ({[ "message" := VStr "Logout effettuato con successo" ]},
   delete_cookie "session_id").

Definition access_denied : exn := HTTPException 403 "Accesso negato".

Definition admin_protected : exn :=
  HTTPException 400 "Impossibile eliminare l'utente admin".

Definition password_updated : doc :=
  {[ "message" := VStr "Password aggiornata con successo" ]}.

Definition user_deleted : doc :=
  {[ "message" := VStr "Utente eliminato con successo" ]}.

(** The test every admin-only handler makes on the resolved user. *)
Definition not_admin (user : option doc) : bool :=
  negb (truthy_doc user) || negb (get_truthy (default ∅ user) "is_admin").

(** ** Invariants of the user store *)

(** No two user records carry the same username. *)
Definition unique_usernames (l : list doc) : Prop :=
  NoDup ((.!! "username") <$> l).

(** The records whose [is_admin] is true. *)
Definition admins (l : list doc) : list doc :=
  List.filter (λ d, get_truthy d "is_admin") l.

(** The invariant of the user store: usernames are unique, and a record
    whose [is_admin] is true is named "admin". *)
Definition users_ok (l : list doc) : Prop :=
  unique_usernames l ∧
  ∀ d, d ∈ l → get_truthy d "is_admin" = true →
       d !! "username" = Some (VStr "admin").

(** The fields the handlers read from a user record without a default. *)
Definition record_ok (d : doc) : Prop :=
  is_Some (d !! "id") ∧ (∃ h, d !! "password" = Some (VStr h)) ∧
  is_Some (d !! "is_admin").

(** ** A concrete outside world

    One outside call per hour on the clock, identifiers and salts numbered
    by the call that made them, and a toy hash that [checkpw] recognises.
    Timestamps are printed as the decimal number of microseconds. *)

Module Demo.

Definition hour : Z := 3600 * 1000000.
Definition clock (n : nat) : Z := Z.of_nat n * hour.
Definition uuid4 (n : nat) : string := "uuid-" +:+ pretty n.
Definition gensalt (n : nat) : string := "salt-" +:+ pretty n.
Definition hashpw (password salt : string) : string :=
  password +:+ "$" +:+ salt.
Definition checkpw (password hashed : string) : bool :=
  String.prefix (password +:+ "$") hashed.
Definition isoformat (t : Z) : string :=
  NilZero.string_of_int (Z.to_int t).
Definition fromisoformat (s : string) : option Z :=
  Z.of_int <$> NilZero.int_of_string s.

Definition empty : world := World [] [] [] 0.

(** The seeded administrator, as [startup_event] leaves it in [empty]. *)
Definition admin_record : doc :=
  {[ "_id" := VOid 3;
     "id" := VStr "uuid-0";
     "username" := VStr "admin";
     "password" := VStr "admin$salt-1";
     "is_admin" := VBool true;
     "created_at" := VStr "7200000000" ]}.

Definition seeded : world := World [admin_record] [] [] 4.

(** The session that [login] as admin/admin opens in [seeded]:
    read at 5 h, it expires at 29 h. *)
Definition admin_session : doc :=
  {[ "_id" := VOid 7;
     "session_id" := VStr "uuid-4";
     "user_id" := VStr "uuid-0";
     "created_at" := VStr "21600000000";
     "expires_at" := VStr "104400000000" ]}.

Definition admin_in : world := World [admin_record] [admin_session] [] 8.

(** [create_user] alice/pw123 by the administrator in [admin_in]. *)
Definition alice_record : doc :=
  {[ "_id" := VOid 12;
     "id" := VStr "uuid-9";
     "username" := VStr "alice";
     "password" := VStr "pw123$salt-10";
     "is_admin" := VBool false;
     "created_at" := VStr "39600000000" ]}.

Definition with_alice : world :=
  World [admin_record; alice_record] [admin_session] [] 13.

(** [login] as alice/pw123 in [with_alice]. *)
Definition alice_session : doc :=
  {[ "_id" := VOid 16;
     "session_id" := VStr "uuid-13";
     "user_id" := VStr "uuid-9";
     "created_at" := VStr "54000000000";
     "expires_at" := VStr "136800000000" ]}.

Definition alice_in : world :=
  World [admin_record; alice_record] [admin_session; alice_session] [] 17.

(** [create_post] by alice in [alice_in]. *)
Definition alice_post : doc :=
  {[ "_id" := VOid 20;
     "id" := VStr "uuid-18";
     "author_id" := VStr "uuid-9";
     "author_username" := VStr "alice";
     "content" := VStr "ciao";
     "created_at" := VStr "68400000000" ]}.

Definition busy : world :=
  World [admin_record; alice_record] [admin_session; alice_session]
    [alice_post] 21.

(** [admin_in] at the very instant the administrator's session expires:
    the 29th outside call is the clock read of the resolution. *)
Definition at_expiry : world := World [admin_record] [admin_session] [] 29.

(** The posts of the concrete worlds are stored oldest first, so newest
    first is the reverse. *)
Definition sort_desc (key : string) (l : list doc) : list doc := reverse l.

End Demo.

(** ** The handlers *)

Section Server.

(** The world outside the program.  [clock n], [uuid4 n] and [gensalt n]
    are what [datetime.now(timezone.utc)] (an instant, in microseconds),
    [str(uuid.uuid4())] and [bcrypt.gensalt()] answer when they are the
    [n]-th outside call; [hashpw] and [checkpw] are bcrypt's;
    [isoformat] and [fromisoformat] are [datetime]'s, the latter giving
    [None] where Python raises [ValueError]. *)
Variable clock : nat → Z.
Variable uuid4 : nat → string.
Variable gensalt : nat → string.
Variable hashpw : string → string → string.
Variable checkpw : string → string → bool.
Variable isoformat : Z → string.
Variable fromisoformat : string → option Z.

Definition datetime_now : M Z := ask clock.

Definition datetime_fromisoformat (v : value) : M Z :=
  match v with
  | VStr s =>
      match fromisoformat s with
      | Some t => mret t
      | None => raise ValueError
      end
  | _ => raise TypeError
  end.

Definition hash_password (password : string) : M string :=
  salt ← ask gensalt;
  mret (hashpw password salt).

Definition verify_password (password : string) (hashed : value) : M bool :=
  match hashed with
  | VStr h => mret (checkpw password h)
  | _ => raise AttributeError
  end.

Definition get_user_from_session (session_id : option string)
  : M (option doc) :=
  if negb (truthy_str session_id) then mret None else
  let sid := default EmptyString session_id in
  session ← find_one Sessions [("session_id", VStr sid)] [];
  if negb (truthy_doc session) then mret None else
  let session := default ∅ session in
  (* Check if session expired *)
  e ← getitem session "expires_at";
  expires_at ← datetime_fromisoformat e;
  now ← datetime_now;
  if bool_decide (expires_at < now) then
    _ ← delete_one Sessions [("session_id", VStr sid)];
    mret None
  else
    uid ← getitem session "user_id";
    find_one Users [("id", uid)] ["_id"; "password"].

(** Create default admin user if it doesn't exist *)
Definition create_default_admin : M unit :=
  existing_admin ← find_one Users [("username", VStr "admin")] [];
  if negb (truthy_doc existing_admin) then
    id ← ask uuid4;
    password ← hash_password "admin";
    now ← datetime_now;
    let admin_user : doc :=
      {[ "id" := VStr id;
         "username" := VStr "admin";
         "password" := VStr password;
         "is_admin" := VBool true;
         "created_at" := VStr (isoformat now) ]} in
    _ ← insert_one Users admin_user;
    mret ()
  else mret ().

(** Auth endpoints *)

Definition login (credentials : UserLogin.t) : M (doc * cookie) :=
  user ← find_one Users
           [("username", VStr (UserLogin.username credentials))] [];
  ok ← (if negb (truthy_doc user) then mret false else
        hashed ← getitem (default ∅ user) "password";
        verify_password (UserLogin.password credentials) hashed);
  if negb ok then raise (HTTPException 401 "Credenziali non valide") else
  let user := default ∅ user in
  (* Create session *)
  session_id ← ask uuid4;
  now ← datetime_now;
  let expires_at := now + timedelta_hours SESSION_EXPIRY_HOURS in
  user_id ← getitem user "id";
  created ← datetime_now;
  let session : doc :=
    {[ "session_id" := VStr session_id;
       "user_id" := user_id;
       "created_at" := VStr (isoformat created);
       "expires_at" := VStr (isoformat expires_at) ]} in
  _ ← insert_one Sessions session;
  (* Set cookie *)
  let c := set_cookie "session_id" session_id true
             (SESSION_EXPIRY_HOURS * 3600) "lax" in
  id ← getitem user "id";
  username ← getitem user "username";
  is_admin ← getitem user "is_admin";
  mret ({[ "id" := id; "username" := username; "is_admin" := is_admin ]},
        c).

Definition logout (session_id : option string) : M (doc * cookie) :=
  _ ← (if truthy_str session_id then
         _ ← delete_one Sessions
               [("session_id", VStr (default EmptyString session_id))];
         mret ()
       else mret ());
  mret ({[ "message" := VStr "Logout effettuato con successo" ]},
        delete_cookie "session_id").

Definition get_current_user (session_id : option string) : M doc :=
  user ← get_user_from_session session_id;
  if negb (truthy_doc user) then
    raise (HTTPException 401 "Non autenticato")
  else mret (default ∅ user).

(** User management endpoints (admin only) *)

Definition get_users (session_id : option string) : M (list doc) :=
  user ← get_user_from_session session_id;
  if negb (truthy_doc user) || negb (get_truthy (default ∅ user) "is_admin")
  then raise (HTTPException 403 "Accesso negato") else
  find_to_list Users [] ["_id"; "password"] 1000.

Definition create_user (user_data : UserCreate.t)
  (session_id : option string) : M doc :=
  user ← get_user_from_session session_id;
  if negb (truthy_doc user) || negb (get_truthy (default ∅ user) "is_admin")
  then raise (HTTPException 403 "Accesso negato") else
  (* Check if username already exists *)
  existing ← find_one Users
               [("username", VStr (UserCreate.username user_data))] [];
  if truthy_doc existing
  then raise (HTTPException 400 "Nome utente già esistente") else
  id ← ask uuid4;
  password ← hash_password (UserCreate.password user_data);
  now ← datetime_now;
  let new_user : doc :=
    {[ "id" := VStr id;
       "username" := VStr (UserCreate.username user_data);
       "password" := VStr password;
       "is_admin" := VBool false;
       "created_at" := VStr (isoformat now) ]} in
  new_user ← insert_one Users new_user;
  (* Return without password *)
  _ ← getitem new_user "password";
  let new_user := delete "password" new_user in
  let new_user := delete "_id" new_user in
  mret new_user.

Definition delete_user (user_id : string) (session_id : option string)
  : M doc :=
  user ← get_user_from_session session_id;
  if negb (truthy_doc user) || negb (get_truthy (default ∅ user) "is_admin")
  then raise (HTTPException 403 "Accesso negato") else
  (* Prevent deleting admin user *)
  target_user ← find_one Users [("id", VStr user_id)] [];
  if truthy_doc target_user
     && bool_decide (default ∅ target_user !! "username" = Some (VStr "admin"))
  then raise (HTTPException 400 "Impossibile eliminare l'utente admin") else
  deleted_count ← delete_one Users [("id", VStr user_id)];
  if bool_decide (deleted_count = 0%nat)
  then raise (HTTPException 404 "Utente non trovato") else
  (* Delete user's sessions and posts *)
  _ ← delete_many Sessions [("user_id", VStr user_id)];
  _ ← delete_many Posts [("author_id", VStr user_id)];
  mret {[ "message" := VStr "Utente eliminato con successo" ]}.

Definition update_user_password (user_id : string)
  (password_data : UserPasswordUpdate.t) (session_id : option string)
  : M doc :=
  user ← get_user_from_session session_id;
  if negb (truthy_doc user) || negb (get_truthy (default ∅ user) "is_admin")
  then raise (HTTPException 403 "Accesso negato") else
  password ← hash_password (UserPasswordUpdate.new_password password_data);
  matched_count ← update_one Users [("id", VStr user_id)]
                    "password" (VStr password);
  if bool_decide (matched_count = 0%nat)
  then raise (HTTPException 404 "Utente non trovato") else
  (* Invalidate all sessions for this user *)
  _ ← delete_many Sessions [("user_id", VStr user_id)];
  mret {[ "message" := VStr "Password aggiornata con successo" ]}.

(** Post endpoints that write.  The three listings ([get_posts],
    [search_posts], [get_user_posts]) only read [db.posts]; what they do
    to the stores is what [get_user_from_session] does. *)

Definition create_post (post_data : PostCreate.t)
  (session_id : option string) : M doc :=
  user ← get_user_from_session session_id;
  if negb (truthy_doc user)
  then raise (HTTPException 401 "Non autenticato") else
  let user := default ∅ user in
  id ← ask uuid4;
  author_id ← getitem user "id";
  author_username ← getitem user "username";
  now ← datetime_now;
  let new_post : doc :=
    {[ "id" := VStr id;
       "author_id" := author_id;
       "author_username" := author_username;
       "content" := VStr (PostCreate.content post_data);
       "created_at" := VStr (isoformat now) ]} in
  new_post ← insert_one Posts new_post;
  mret (delete "_id" new_post).

Definition delete_post (post_id : string) (session_id : option string)
  : M doc :=
  user ← get_user_from_session session_id;
  if negb (truthy_doc user)
  then raise (HTTPException 401 "Non autenticato") else
  let user := default ∅ user in
  post ← find_one Posts [("id", VStr post_id)] [];
  if negb (truthy_doc post)
  then raise (HTTPException 404 "Post non trovato") else
  let post := default ∅ post in
  (* Check if user is author or admin *)
  author_id ← getitem post "author_id";
  id ← getitem user "id";
  if bool_decide (author_id ≠ id) && negb (get_truthy user "is_admin")
  then raise (HTTPException 403 "Accesso negato") else
  _ ← delete_one Posts [("id", VStr post_id)];
  mret {[ "message" := VStr "Post eliminato con successo" ]}.

Definition startup_event : M unit := create_default_admin.

(** The world the bootstrap leaves behind. *)
Definition bootstrapped (w : world) : world := (create_default_admin w).2.

(** ** The public interface as a transition system *)

Inductive request :=
| Startup
| Login (credentials : UserLogin.t)
| Logout (session_id : option string)
| GetCurrentUser (session_id : option string)
| GetUsers (session_id : option string)
| CreateUser (user_data : UserCreate.t) (session_id : option string)
| DeleteUser (user_id : string) (session_id : option string)
| UpdateUserPassword (user_id : string)
    (password_data : UserPasswordUpdate.t) (session_id : option string)
| CreatePost (post_data : PostCreate.t) (session_id : option string)
| DeletePost (post_id : string) (session_id : option string).

(** The world a request leaves behind, whatever it answers. *)
Definition handle (r : request) (w : world) : world :=
  match r with
  | Startup => (startup_event w).2
  | Login c => (login c w).2
  | Logout sid => (logout sid w).2
  | GetCurrentUser sid => (get_current_user sid w).2
  | GetUsers sid => (get_users sid w).2
  | CreateUser d sid => (create_user d sid w).2
  | DeleteUser uid sid => (delete_user uid sid w).2
  | UpdateUserPassword uid d sid => (update_user_password uid d sid w).2
  | CreatePost d sid => (create_post d sid w).2
  | DeletePost pid sid => (delete_post pid sid w).2
  end.

(** The worlds the service can be in: it starts on an empty database. *)
Inductive reachable : world → Prop :=
| reachable_empty : reachable (World [] [] [] 0)
| reachable_handle r w : reachable w → reachable (handle r w).

(** The world after a sequence of requests, served in order. *)
Definition serve (rs : list request) (w : world) : world :=
  foldl (λ w r, handle r w) w rs.

(** ** The post listings

    [sort_desc key l] is what the database answers to
    [.sort(key, -1)] on the documents [l].  [search_posts] is left out:
    its filter is a regular expression given by the caller. *)
Variable sort_desc : string → list doc → list doc.

(** [find(q, p).sort(key, -1).to_list(n)] *)
Definition find_sort_to_list (c : coll) (q : query) (p : projection)
  (key : string) (n : nat) : M (list doc) :=
  λ w, (inr (take n (project p <$>
                     sort_desc key (List.filter (matches q) (db_get c w)))),
        w).

Definition get_posts (session_id : option string) : M (list doc) :=
  user ← get_user_from_session session_id;
  if negb (truthy_doc user)
  then raise (HTTPException 401 "Non autenticato") else
  find_sort_to_list Posts [] ["_id"] "created_at" 1000.

Definition get_user_posts (user_id : string) (session_id : option string)
  : M (list doc) :=
  user ← get_user_from_session session_id;
  if negb (truthy_doc user)
  then raise (HTTPException 401 "Non autenticato") else
  find_sort_to_list Posts [("author_id", VStr user_id)] ["_id"]
    "created_at" 1000.

(** ** Well-formed stores

    The fields the handlers read with [d[k]] from the documents they
    find, and a stored expiry that [fromisoformat] reads. *)






(** No two sessions carry the same token, and every token was drawn from
    [uuid4] by an outside call already made. *)
Definition tokens_ok (w : world) : Prop :=
  NoDup ((.!! "session_id") <$> sessions w) ∧
  Forall (λ d, ∃ k, (k < tick w)%nat ∧
                    d !! "session_id" = Some (VStr (uuid4 k)))
    (sessions w).

Definition not_authenticated : exn := HTTPException 401 "Non autenticato".

Definition username_taken : exn :=
  HTTPException 400 "Nome utente già esistente".

Definition user_not_found : exn := HTTPException 404 "Utente non trovato".

Definition post_not_found : exn := HTTPException 404 "Post non trovato".

Definition post_deleted : doc :=
  {[ "message" := VStr "Post eliminato con successo" ]}.

(** ** Running the monad *)

Lemma bind_run {A B} (m : M A) (f : A → M B) (w : world) :
  (m ≫= f) w =
  match m w with
  | (inl e, w') => (inl e, w')
  | (inr a, w') => f a w'
  end.
Proof. reflexivity. Qed.

Lemma bind_inr {A B} (m : M A) (f : A → M B) (w w' : world) (b : B) :
  (m ≫= f) w = (inr b, w') →
  ∃ a w1, m w = (inr a, w1) ∧ f a w1 = (inr b, w').
Proof.
  rewrite bind_run. destruct (m w) as [[e|a] w1]; [done|]. eauto.
Qed.

(** ** Queries on lists of documents *)

Lemma matches_field k v d : matches [(k, v)] d = true ↔ d !! k = Some v.
Proof.
  unfold matches. simpl. rewrite andb_true_r. apply bool_decide_eq_true.
Qed.

Lemma matches_field_false k v d :
  matches [(k, v)] d = false ↔ d !! k ≠ Some v.
Proof.
  unfold matches. simpl. rewrite andb_true_r. apply bool_decide_eq_false.
Qed.

Lemma matches_insert_ne q k v d :
  k ∉ q.*1 → matches q (<[k := v]> d) = matches q d.
Proof.
  unfold matches. induction q as [|[k' v'] q IH]; simpl; [done|].
  intros Hk. apply not_elem_of_cons in Hk as [Hne Hk].
  rewrite lookup_insert_ne by done. by rewrite IH.
Qed.

Lemma find_first_Some q l d :
  find_first q l = Some d → d ∈ l ∧ matches q d = true.
Proof.
  intros H. apply find_some in H as [H1 H2]. by rewrite list_elem_of_In.
Qed.

Lemma find_first_None q l :
  find_first q l = None ↔ ∀ d, d ∈ l → matches q d = false.
Proof.
  split.
  - intros H d Hd. apply (find_none _ _ H). by apply list_elem_of_In.
  - intros H. unfold find_first. induction l as [|d l IH]; simpl; [done|].
    rewrite (H d) by left. apply IH. intros d' Hd'. apply H. by right.
Qed.

Lemma find_first_nonempty k v q l d :
  find_first ((k, v) :: q) l = Some d → d ≠ ∅.
Proof.
  intros H%find_first_Some. destruct H as [_ H]. intros ->.
  unfold matches in H. simpl in H. rewrite lookup_empty in H.
  by rewrite bool_decide_eq_false_2 in H.
Qed.

(** A document found by a filter that names a field is a non-empty dict:
    [if not doc] is then the test for "no match". *)
Lemma truthy_find k v q l :
  truthy_doc (find_first ((k, v) :: q) l)
  = bool_decide (is_Some (find_first ((k, v) :: q) l)).
Proof.
  destruct (find_first _ l) as [d|] eqn:E; simpl.
  - apply find_first_nonempty in E.
    by rewrite bool_decide_eq_false_2.
  - done.
Qed.

Lemma project_nil_fmap (o : option doc) : project [] <$> o = o.
Proof. by destruct o. Qed.

Lemma project_lookup_excluded p k d : k ∈ p → project p d !! k = None.
Proof.
  unfold project. induction p as [|k' p IH]; simpl.
  - by intros ?%elem_of_nil.
  - intros Hk. destruct (decide (k' = k)) as [->|Hne].
    + apply lookup_delete_eq.
    + rewrite lookup_delete_ne by done. apply IH.
      apply elem_of_cons in Hk as [?|?]; [congruence|done].
Qed.

Lemma project_lookup_kept p k d : k ∉ p → project p d !! k = d !! k.
Proof.
  unfold project. induction p as [|k' p IH]; simpl; [done|].
  intros Hk. apply not_elem_of_cons in Hk as [Hne Hk].
  rewrite lookup_delete_ne by done. by apply IH.
Qed.

Lemma elem_of_remove_all q l d :
  d ∈ remove_all q l ↔ d ∈ l ∧ matches q d = false.
Proof.
  unfold remove_all. rewrite !list_elem_of_In, filter_In.
  by rewrite negb_true_iff.
Qed.

Lemma find_first_remove_all q q' l :
  (∀ d, d ∈ l → matches q d = true → matches q' d = true) →
  find_first q (remove_all q' l) = None.
Proof.
  intros H. apply find_first_None. intros d [Hd Hq']%elem_of_remove_all.
  destruct (matches q d) eqn:E; [|done].
  rewrite (H d Hd E) in Hq'. done.
Qed.

Lemma remove_first_None q l : find_first q l = None → remove_first q l = l.
Proof.
  unfold find_first. induction l as [|d l IH]; simpl; [done|].
  destruct (matches q d); [done|]. intros H. by rewrite IH.
Qed.

Lemma remove_first_sublist q l : sublist (remove_first q l) l.
Proof.
  induction l as [|d l IH]; simpl; [done|].
  destruct (matches q d).
  - by apply sublist_cons.
  - by apply sublist_skip.
Qed.

Lemma set_first_None q k v l : find_first q l = None → set_first q k v l = l.
Proof.
  unfold find_first. induction l as [|d l IH]; simpl; [done|].
  destruct (matches q d); [done|]. intros H. by rewrite IH.
Qed.

Lemma find_first_set_first q k v l :
  k ∉ q.*1 →
  find_first q (set_first q k v l) = <[k := v]> <$> find_first q l.
Proof.
  intros Hk. unfold find_first. induction l as [|d l IH]; simpl; [done|].
  destruct (matches q d) eqn:E; simpl.
  - by rewrite matches_insert_ne, E.
  - by rewrite E.
Qed.

(** [$set] on one field leaves every other field of every document. *)
Lemma set_first_field q k v l k' :
  k ≠ k' → (.!! k') <$> set_first q k v l = (.!! k') <$> l.
Proof.
  intros Hne. induction l as [|d l IH]; [done|]. cbn [set_first].
  destruct (matches q d); rewrite !fmap_cons.
  - by rewrite lookup_insert_ne.
  - by rewrite IH.
Qed.

(** ** What session resolution does to the stores *)

Ltac unfold_M :=
  unfold find_one, find_to_list, insert_one, delete_one, delete_many,
    update_one, getitem, datetime_fromisoformat, datetime_now,
    hash_password, verify_password, ask, raise, mbind, mret, M_bind, M_ret
    in *.

Ltac crunch := repeat (case_match; simpl in *; simplify_eq; try done).

Lemma resolve_users sid w :
  users (get_user_from_session sid w).2 = users w.
Proof. unfold get_user_from_session. unfold_M. crunch. Qed.

Lemma resolve_posts sid w :
  posts (get_user_from_session sid w).2 = posts w.
Proof. unfold get_user_from_session. unfold_M. crunch. Qed.

Lemma resolve_no_cookie w : get_user_from_session None w = (inr None, w).
Proof. reflexivity. Qed.

Lemma resolve_absent s w :
  find_first [("session_id", VStr s)] (sessions w) = None →
  get_user_from_session (Some s) w = (inr None, w).
Proof.
  intros H. unfold get_user_from_session. unfold_M.
  destruct (truthy_str (Some s)); simpl; [|done]. by rewrite H.
Qed.

(** The one path on which a cookie resolves to a user: the session is
    there, is not past its expiry at the instant read from the clock, and
    nothing is written. *)
Lemma resolve_Some_inv sid w u w' :
  get_user_from_session sid w = (inr (Some u), w') →
  w' = next_tick w ∧
  ∃ s session e t uid,
    sid = Some s ∧ s ≠ EmptyString ∧
    find_first [("session_id", VStr s)] (sessions w) = Some session ∧
    session !! "expires_at" = Some (VStr e) ∧
    fromisoformat e = Some t ∧
    ¬ t < clock (tick w) ∧
    session !! "user_id" = Some uid ∧
    project ["_id"; "password"] <$> find_first [("id", uid)] (users w)
      = Some u.
Proof.
  unfold get_user_from_session.
  destruct sid as [s|]; simpl; [|done].
  destruct (decide (s = EmptyString)) as [->|Hs]; [done|].
  rewrite bool_decide_eq_false_2 by done. simpl.
  unfold_M. simpl.
  destruct (find_first _ (sessions w)) as [session|] eqn:Hf; simpl; [|done].
  rewrite bool_decide_eq_false_2 by (by eapply find_first_nonempty).
  simpl.
  destruct (session !! "expires_at") as [[e| |]|] eqn:He; try done.
  destruct (fromisoformat e) as [t|] eqn:Ht; [|done].
  case_bool_decide as Hlt; [done|].
  destruct (session !! "user_id") as [uid|] eqn:Hu; [|done].
  intros [= Hr <-]. split; [done|].
  by exists s, session, e, t, uid.
Qed.

Lemma remove_first_split q l d :
  find_first q l = Some d →
  ∃ l1 l2, l = l1 ++ d :: l2 ∧ remove_first q l = l1 ++ l2 ∧
           ∀ x, x ∈ l1 → matches q x = false.
Proof.
  unfold find_first. induction l as [|x l IH]; simpl; [done|].
  destruct (matches q x) eqn:E.
  - intros [= ->]. exists [], l. split_and!; [done..|].
    by intros ? ?%elem_of_nil.
  - intros (l1 & l2 & -> & Hr & Hl1)%IH. exists (x :: l1), l2.
    split_and!; [done|by rewrite Hr|].
    intros y [->|Hy]%elem_of_cons; [done|by apply Hl1].
Qed.

Lemma resolve_present s w session e t uid :
  s ≠ EmptyString →
  find_first [("session_id", VStr s)] (sessions w) = Some session →
  session !! "expires_at" = Some (VStr e) →
  fromisoformat e = Some t →
  session !! "user_id" = Some uid →
  get_user_from_session (Some s) w =
  if bool_decide (t < clock (tick w)) then
    (inr None,
     World (users w) (remove_first [("session_id", VStr s)] (sessions w))
       (posts w) (S (tick w)))
  else
    (inr (project ["_id"; "password"] <$> find_first [("id", uid)] (users w)),
     next_tick w).
Proof.
  intros Hs Hf He Ht Hu. unfold get_user_from_session. simpl.
  rewrite bool_decide_eq_false_2 by done. simpl.
  unfold_M. simpl. rewrite Hf. simpl.
  rewrite bool_decide_eq_false_2 by (by eapply find_first_nonempty).
  simpl. rewrite He, Ht. by case_bool_decide; [|rewrite Hu].
Qed.

(** C1 (amended).  Resolving the token of a stored session whose owner is
    in the user store, at the instant [now] read from the clock: when
    [expiry < now] the session is deleted and the answer is [None]; when
    [now <= expiry], the instant of expiry included, nothing is written
    and the answer is the owner's record without [_id] and [password]. *)
Theorem resolve_checks_expiry s w session e expiry uid user :
  s ≠ EmptyString →
  find_first [("session_id", VStr s)] (sessions w) = Some session →
  session !! "expires_at" = Some (VStr e) →
  fromisoformat e = Some expiry →
  session !! "user_id" = Some uid →
  find_first [("id", uid)] (users w) = Some user →
  let now := clock (tick w) in
  (expiry < now →
   ∃ l1 l2,
     sessions w = l1 ++ session :: l2 ∧
     get_user_from_session (Some s) w
     = (inr None, World (users w) (l1 ++ l2) (posts w) (S (tick w)))) ∧
  (now ≤ expiry →
   get_user_from_session (Some s) w
   = (inr (Some (project ["_id"; "password"] user)), next_tick w)).
Proof.
  intros Hs Hf He Ht Hu Huser now.
  rewrite (resolve_present s w session e expiry uid) by done.
  fold now. split; intros Hcmp.
  - rewrite bool_decide_eq_true_2 by done.
    destruct (remove_first_split _ _ _ Hf) as (l1 & l2 & Hl & -> & _).
    by exists l1, l2.
  - rewrite bool_decide_eq_false_2 by lia. by rewrite Huser.
Qed.

(** ** Logout *)

Lemma logout_run sid w :
  logout sid w
  = (inr logged_out,
     if truthy_str sid then
       World (users w)
         (remove_first [("session_id", VStr (default EmptyString sid))]
            (sessions w))
         (posts w) (tick w)
     else w).
Proof. unfold logout. unfold_M. by destruct (truthy_str sid). Qed.

Lemma count_matches_0 q l : count_matches q l = 0%nat → find_first q l = None.
Proof.
  unfold count_matches, find_first.
  induction l as [|d l IH]; simpl; [done|].
  by destruct (matches q d).
Qed.

Lemma find_first_remove_first q l :
  (count_matches q l ≤ 1)%nat → find_first q (remove_first q l) = None.
Proof.
  unfold count_matches.
  induction l as [|d l IH]; simpl; [done|].
  destruct (matches q d) eqn:E; simpl.
  - intros H. apply count_matches_0. unfold count_matches. lia.
  - intros H. unfold find_first. simpl. rewrite E. by apply IH.
Qed.

(** C9.  [logout] always answers with the same success message and the
    instruction to clear the cookie.  With a cookie it deletes the first
    session carrying that token; a second call with a token that is no
    longer in the store, as is the case after the first call whenever at
    most one session carried it, answers the same and changes nothing. *)
Theorem logout_idempotent sid w :
  let q := [("session_id", VStr (default EmptyString sid))] in
  let w1 := (logout sid w).2 in
  (logout sid w).1 = inr logged_out ∧
  (logout sid w1).1 = inr logged_out ∧
  users w1 = users w ∧ posts w1 = posts w ∧
  (∀ session,
     truthy_str sid = true →
     find_first q (sessions w) = Some session →
     ∃ l1 l2, sessions w = l1 ++ session :: l2 ∧ sessions w1 = l1 ++ l2) ∧
  (find_first q (sessions w) = None → w1 = w) ∧
  (find_first q (sessions w1) = None → logout sid w1 = (inr logged_out, w1)) ∧
  ((count_matches q (sessions w) ≤ 1)%nat →
   logout sid w1 = (inr logged_out, w1)).
Proof.
  intros q w1. unfold w1. rewrite !logout_run. simpl.
  destruct (truthy_str sid) eqn:Ht; simpl; [|by split_and!].
  assert (∀ l, find_first q l = None →
            World (users w) (remove_first q l) (posts w) (tick w)
            = World (users w) l (posts w) (tick w)) as Hnone.
  { intros l H. by rewrite remove_first_None. }
  split_and!; try done.
  - intros session _ Hf.
    destruct (remove_first_split _ _ _ Hf) as (l1 & l2 & ? & ? & _). eauto.
  - intros H. rewrite Hnone by done. by destruct w.
  - intros H. f_equal. by apply Hnone.
  - intros H. f_equal. apply Hnone. by apply find_first_remove_first.
Qed.

(** ** The admin guard *)

Lemma not_admin_cases user :
  user = None ∨ (∃ u, user = Some u ∧ get_truthy u "is_admin" = false) →
  not_admin user = true.
Proof.
  unfold not_admin. intros [->|(u & -> & H)]; [done|].
  simpl. rewrite H. apply orb_true_r.
Qed.

Lemma get_users_denied sid w user w1 :
  get_user_from_session sid w = (inr user, w1) →
  not_admin user = true →
  get_users sid w = (inl access_denied, w1).
Proof.
  intros Hr Hn. unfold get_users. rewrite bind_run, Hr.
  unfold not_admin in Hn. by rewrite Hn.
Qed.

Lemma create_user_denied user_data sid w user w1 :
  get_user_from_session sid w = (inr user, w1) →
  not_admin user = true →
  create_user user_data sid w = (inl access_denied, w1).
Proof.
  intros Hr Hn. unfold create_user. rewrite bind_run, Hr.
  unfold not_admin in Hn. by rewrite Hn.
Qed.

Lemma delete_user_denied user_id sid w user w1 :
  get_user_from_session sid w = (inr user, w1) →
  not_admin user = true →
  delete_user user_id sid w = (inl access_denied, w1).
Proof.
  intros Hr Hn. unfold delete_user. rewrite bind_run, Hr.
  unfold not_admin in Hn. by rewrite Hn.
Qed.

Lemma update_user_password_denied user_id password_data sid w user w1 :
  get_user_from_session sid w = (inr user, w1) →
  not_admin user = true →
  update_user_password user_id password_data sid w
  = (inl access_denied, w1).
Proof.
  intros Hr Hn. unfold update_user_password. rewrite bind_run, Hr.
  unfold not_admin in Hn. by rewrite Hn.
Qed.

(** C3 (amended).  Each of the four admin-only handlers answers a caller
    without a resolved identity and a caller whose identity is not an
    administrator's with the same exception, 403 "Accesso negato". *)
Theorem admin_guard_denies sid w user w1 :
  get_user_from_session sid w = (inr user, w1) →
  user = None ∨ (∃ u, user = Some u ∧ get_truthy u "is_admin" = false) →
  get_users sid w = (inl access_denied, w1) ∧
  (∀ user_data, create_user user_data sid w = (inl access_denied, w1)) ∧
  (∀ user_id, delete_user user_id sid w = (inl access_denied, w1)) ∧
  (∀ user_id password_data,
     update_user_password user_id password_data sid w
     = (inl access_denied, w1)).
Proof.
  intros Hr Hn%not_admin_cases. split_and!; intros.
  - by eapply get_users_denied.
  - by eapply create_user_denied.
  - by eapply delete_user_denied.
  - by eapply update_user_password_denied.
Qed.

(** ** Deleting the administrator *)

Lemma delete_user_raises user_id sid w e w1 :
  get_user_from_session sid w = (inl e, w1) →
  delete_user user_id sid w = (inl e, w1).
Proof. intros Hr. unfold delete_user. by rewrite bind_run, Hr. Qed.

Lemma delete_user_admin_target user_id sid w user w1 target :
  get_user_from_session sid w = (inr user, w1) →
  not_admin user = false →
  find_first [("id", VStr user_id)] (users w) = Some target →
  target !! "username" = Some (VStr "admin") →
  delete_user user_id sid w = (inl admin_protected, w1).
Proof.
  intros Hr Hn Hf Ht. unfold delete_user. rewrite bind_run, Hr.
  unfold not_admin in Hn. rewrite Hn.
  assert (users w1 = users w) as Hu.
  { by rewrite <- (resolve_users sid w), Hr. }
  unfold_M. simpl. rewrite Hu, Hf. simpl.
  rewrite bool_decide_eq_false_2 by (by eapply find_first_nonempty).
  simpl. by rewrite bool_decide_eq_true_2.
Qed.

(** C4 (amended).  A request to delete the record found under an id whose
    username is "admin" never deletes: the user store and the posts are
    left as they were, and the request ends in an exception, which is 403
    "Accesso negato" for a caller who is not an administrator and 400
    "Impossibile eliminare l'utente admin" for an administrator. *)
Theorem delete_admin_rejected user_id sid w target :
  find_first [("id", VStr user_id)] (users w) = Some target →
  target !! "username" = Some (VStr "admin") →
  let r := delete_user user_id sid w in
  users r.2 = users w ∧ posts r.2 = posts w ∧
  (∃ e, r.1 = inl e) ∧
  (∀ user w1,
     get_user_from_session sid w = (inr user, w1) →
     r = (inl (if not_admin user then access_denied else admin_protected),
          w1)).
Proof.
  intros Hf Ht r. unfold r.
  pose proof (resolve_users sid w) as Hu.
  pose proof (resolve_posts sid w) as Hp.
  destruct (get_user_from_session sid w) as [[e|user] w1] eqn:Hr.
  - rewrite (delete_user_raises _ _ _ _ _ Hr). simpl in *.
    split_and!; eauto. by intros ? ? [=].
  - destruct (not_admin user) eqn:Hn.
    + rewrite (delete_user_denied _ _ _ _ _ Hr Hn). simpl in *.
      split_and!; eauto. by intros ? ? [= <- <-]; rewrite Hn.
    + rewrite (delete_user_admin_target _ _ _ _ _ _ Hr Hn Hf Ht). simpl in *.
      split_and!; eauto. by intros ? ? [= <- <-]; rewrite Hn.
Qed.

(** ** Login *)

Lemma login_unknown c w :
  find_first [("username", VStr (UserLogin.username c))] (users w) = None →
  login c w = (inl invalid_credentials, w).
Proof.
  intros Hf. unfold login. unfold_M. simpl. by rewrite Hf.
Qed.

Lemma login_wrong_password c w user h :
  find_first [("username", VStr (UserLogin.username c))] (users w)
    = Some user →
  user !! "password" = Some (VStr h) →
  checkpw (UserLogin.password c) h = false →
  login c w = (inl invalid_credentials, w).
Proof.
  intros Hf Hp Hc. unfold login. unfold_M. simpl. rewrite Hf. simpl.
  rewrite bool_decide_eq_false_2 by (by eapply find_first_nonempty).
  simpl. by rewrite Hp, Hc.
Qed.

Lemma session_dict_no_id (a b c d : value) :
  ({[ "session_id" := a; "user_id" := b; "created_at" := c;
      "expires_at" := d ]} : doc) !! "_id" = None.
Proof. reflexivity. Qed.

Lemma login_http_error c w status detail w' :
  login c w = (inl (HTTPException status detail), w') →
  HTTPException status detail = invalid_credentials ∧ w' = w.
Proof.
  unfold login. unfold_M. simpl.
  destruct (find_first _ (users w)) as [user|] eqn:Hf; simpl;
    [|by intros [= <- <- <-]].
  rewrite bool_decide_eq_false_2 by (by eapply find_first_nonempty).
  simpl.
  destruct (user !! "password") as [[h| |]|]; simpl; try done.
  destruct (checkpw _ h); simpl; [|by intros [= <- <- <-]].
  destruct (user !! "id"); simpl; [|done].
  rewrite session_dict_no_id.
  destruct (user !! "username"); simpl; [|done].
  by destruct (user !! "is_admin").
Qed.

Lemma login_success c w user h id is_admin :
  find_first [("username", VStr (UserLogin.username c))] (users w)
    = Some user →
  user !! "password" = Some (VStr h) →
  checkpw (UserLogin.password c) h = true →
  user !! "id" = Some id →
  user !! "is_admin" = Some is_admin →
  login c w
  = (inr ({[ "id" := id; "username" := VStr (UserLogin.username c);
             "is_admin" := is_admin ]},
          set_cookie "session_id" (uuid4 (tick w)) true
            (SESSION_EXPIRY_HOURS * 3600) "lax"),
     World (users w)
       (sessions w ++
        [ <["_id" := VOid (3 + tick w)]>
            {[ "session_id" := VStr (uuid4 (tick w));
               "user_id" := id;
               "created_at" := VStr (isoformat (clock (2 + tick w)));
               "expires_at" :=
                 VStr (isoformat (clock (1 + tick w)
                                  + timedelta_hours SESSION_EXPIRY_HOURS)) ]} ])
       (posts w) (4 + tick w)).
Proof.
  intros Hf Hp Hc Hid Hadm.
  assert (user !! "username" = Some (VStr (UserLogin.username c))) as Hn.
  { apply find_first_Some in Hf as [_ Hm]. by apply matches_field. }
  unfold login. unfold_M. simpl. rewrite Hf. simpl.
  rewrite bool_decide_eq_false_2 by (by eapply find_first_nonempty).
  simpl. rewrite Hp, Hc. simpl. rewrite Hid. simpl.
  rewrite session_dict_no_id. by rewrite Hn, Hadm.
Qed.

(** ** What the handlers return *)

Lemma login_inr_inv c w d ck w' :
  login c w = (inr (d, ck), w') →
  ∃ user id username is_admin,
    find_first [("username", VStr (UserLogin.username c))] (users w)
      = Some user ∧
    user !! "id" = Some id ∧ user !! "username" = Some username ∧
    user !! "is_admin" = Some is_admin ∧
    d = {[ "id" := id; "username" := username; "is_admin" := is_admin ]} ∧
    ck = set_cookie "session_id" (uuid4 (tick w)) true
           (SESSION_EXPIRY_HOURS * 3600) "lax".
Proof.
  unfold login. unfold_M. simpl.
  destruct (find_first _ (users w)) as [user|] eqn:Hf; simpl; [|done].
  rewrite bool_decide_eq_false_2 by (by eapply find_first_nonempty).
  simpl.
  destruct (user !! "password") as [[h| |]|]; simpl; try done.
  destruct (checkpw _ h); simpl; [|done].
  destruct (user !! "id") as [id|] eqn:Hid; simpl; [|done].
  rewrite session_dict_no_id.
  destruct (user !! "username") as [username|] eqn:Hn; simpl; [|done].
  destruct (user !! "is_admin") as [is_admin|] eqn:Ha; simpl; [|done].
  intros [= <- <- <-]. by exists user, id, username, is_admin.
Qed.

Lemma resolve_projected sid w u w' :
  get_user_from_session sid w = (inr (Some u), w') →
  ∃ user, user ∈ users w ∧ u = project ["_id"; "password"] user.
Proof.
  intros (_ & s & session & e & t & uid & _ & _ & _ & _ & _ & _ & _ & H)
    %resolve_Some_inv.
  destruct (find_first _ (users w)) as [user|] eqn:Hf; [|done].
  injection H as <-. exists user. split; [|done].
  by apply find_first_Some in Hf as [? _].
Qed.

Lemma get_users_inr_inv sid w l w' :
  get_users sid w = (inr l, w') →
  l = take 1000 (project ["_id"; "password"] <$> users w).
Proof.
  unfold get_users. rewrite bind_run.
  pose proof (resolve_users sid w) as Hu.
  destruct (get_user_from_session sid w) as [[e|user] w1]; [done|].
  simpl in Hu. destruct (_ || _); [done|].
  unfold_M. simpl. intros [= <- <-]. rewrite Hu. f_equal. f_equal.
  unfold matches. simpl. clear. induction (users w) as [|d l IH]; [done|].
  simpl. by rewrite IH.
Qed.

Lemma create_user_dict_no_id (a b c d e : value) :
  ({[ "id" := a; "username" := b; "password" := c; "is_admin" := d;
      "created_at" := e ]} : doc) !! "_id" = None.
Proof. reflexivity. Qed.

(** What a successful [create_user] does: the caller resolved to an
    administrator, the username was free, and one record is appended. *)
Lemma create_user_inr_inv user_data sid w r w' :
  create_user user_data sid w = (inr r, w') →
  let username := UserCreate.username user_data in
  let t := S (tick w) in
  let new_user : doc :=
    {[ "_id" := VOid (3 + t);
       "id" := VStr (uuid4 t);
       "username" := VStr username;
       "password" :=
         VStr (hashpw (UserCreate.password user_data) (gensalt (1 + t)));
       "is_admin" := VBool false;
       "created_at" := VStr (isoformat (clock (2 + t))) ]} in
  (∃ caller, get_user_from_session sid w = (inr (Some caller), next_tick w) ∧
             get_truthy caller "is_admin" = true) ∧
  find_first [("username", VStr username)] (users w) = None ∧
  w' = World (users w ++ [new_user]) (sessions w) (posts w) (4 + t) ∧
  r = delete "_id" (delete "password" new_user).
Proof.
  unfold create_user. rewrite bind_run.
  destruct (get_user_from_session sid w) as [[e|[caller|]] w1] eqn:Hr;
    [done| |done].
  destruct (resolve_Some_inv _ _ _ _ Hr) as [-> _].
  destruct (negb (truthy_doc _)) eqn:Ht; [done|]. simpl.
  destruct (get_truthy caller "is_admin") eqn:Ha; [|done]. simpl.
  unfold_M. simpl. rewrite project_nil_fmap, truthy_find.
  destruct (find_first _ (users w)) as [existing|] eqn:Hf; simpl.
  { done. }
  rewrite create_user_dict_no_id. simpl.
  rewrite lookup_insert_ne, lookup_insert_ne, lookup_insert_ne,
    lookup_insert_eq by done.
  intros [= <- <-]. split_and!; eauto.
Qed.

Lemma get_current_user_inr_inv sid w u w' :
  get_current_user sid w = (inr u, w') →
  get_user_from_session sid w = (inr (Some u), w').
Proof.
  unfold get_current_user. rewrite bind_run.
  destruct (get_user_from_session sid w) as [[e|[user|]] w1]; [done| |done].
  destruct (negb _); [done|]. unfold_M. simpl. by intros [= <- <-].
Qed.

(** ** Bootstrap *)

Lemma create_default_admin_run w :
  let admin_user : doc :=
    {[ "_id" := VOid (3 + tick w);
       "id" := VStr (uuid4 (tick w));
       "username" := VStr "admin";
       "password" := VStr (hashpw "admin" (gensalt (1 + tick w)));
       "is_admin" := VBool true;
       "created_at" := VStr (isoformat (clock (2 + tick w))) ]} in
  create_default_admin w
  = (inr (),
     if find_first [("username", VStr "admin")] (users w) is Some _ then w
     else World (users w ++ [admin_user]) (sessions w) (posts w)
            (4 + tick w)).
Proof.
  unfold create_default_admin. unfold_M. simpl.
  rewrite project_nil_fmap, truthy_find.
  destruct (find_first _ (users w)) as [existing|] eqn:Hf; simpl; [done|].
  by rewrite create_user_dict_no_id.
Qed.

Lemma count_matches_app q l1 l2 :
  count_matches q (l1 ++ l2) = (count_matches q l1 + count_matches q l2)%nat.
Proof. unfold count_matches. by rewrite List.filter_app, length_app. Qed.

Lemma count_matches_None q l :
  find_first q l = None → count_matches q l = 0%nat.
Proof.
  unfold count_matches, find_first.
  induction l as [|d l IH]; simpl; [done|].
  by destruct (matches q d).
Qed.

Lemma count_matches_Some q l d :
  find_first q l = Some d → (1 ≤ count_matches q l)%nat.
Proof.
  intros H. destruct (count_matches q l) eqn:E; [|lia].
  apply count_matches_0 in E. congruence.
Qed.

Lemma find_first_app_None q l d :
  find_first q l = None → matches q d = true →
  find_first q (l ++ [d]) = Some d.
Proof.
  unfold find_first. induction l as [|x l IH]; simpl.
  - by intros _ ->.
  - destruct (matches q x); [done|]. apply IH.
Qed.

Lemma bootstrapped_has_admin w :
  is_Some (find_first [("username", VStr "admin")] (users (bootstrapped w))).
Proof.
  unfold bootstrapped. rewrite create_default_admin_run. simpl.
  destruct (find_first _ (users w)) as [existing|] eqn:Hf; [by rewrite Hf|].
  simpl. erewrite find_first_app_None; [done..|]. by apply matches_field.
Qed.

Lemma bootstrapped_again w : bootstrapped (bootstrapped w) = bootstrapped w.
Proof.
  destruct (bootstrapped_has_admin w) as [existing Hf].
  unfold bootstrapped at 1. rewrite create_default_admin_run. simpl.
  by rewrite Hf.
Qed.

(** C8.  When no record is named "admin", the bootstrap appends one record,
    named "admin", with the hash of the password "admin" and [is_admin]
    true, and the store then holds one record of that name; when there is
    one, nothing is written.  Running it once more, or any number of times
    more, changes nothing, and a store that held at most one record named
    "admin" holds exactly one afterwards. *)
Theorem bootstrap_idempotent w :
  let q := [("username", VStr "admin")] in
  (find_first q (users w) = None →
   ∃ admin_user,
     create_default_admin w
     = (inr (), World (users w ++ [admin_user]) (sessions w) (posts w)
                  (4 + tick w)) ∧
     admin_user !! "username" = Some (VStr "admin") ∧
     admin_user !! "password"
       = Some (VStr (hashpw "admin" (gensalt (1 + tick w)))) ∧
     admin_user !! "is_admin" = Some (VBool true) ∧
     count_matches q (users w ++ [admin_user]) = 1%nat) ∧
  (is_Some (find_first q (users w)) → create_default_admin w = (inr (), w)) ∧
  (∀ n, Nat.iter (S n) bootstrapped w = bootstrapped w) ∧
  ((count_matches q (users w) ≤ 1)%nat →
   ∀ n, count_matches q (users (Nat.iter (S n) bootstrapped w)) = 1%nat).
Proof.
  intros q. subst q.
  assert (∀ n, Nat.iter (S n) bootstrapped w = bootstrapped w) as Hiter.
  { induction n as [|n IH]; [done|].
    change (bootstrapped (Nat.iter (S n) bootstrapped w) = bootstrapped w).
    rewrite IH. apply bootstrapped_again. }
  split_and!.
  - intros Hf. eexists. rewrite create_default_admin_run, Hf.
    split_and!; [done..|].
    rewrite count_matches_app, (count_matches_None _ _ Hf). done.
  - intros [existing Hf]. by rewrite create_default_admin_run, Hf.
  - done.
  - intros Hc n. rewrite Hiter. unfold bootstrapped.
    rewrite create_default_admin_run. simpl.
    destruct (find_first _ (users w)) as [existing|] eqn:Hf.
    + apply count_matches_Some in Hf. lia.
    + simpl. rewrite count_matches_app.
      by rewrite (count_matches_None _ _ Hf).
Qed.

(** ** Changing a password *)

Lemma is_Some_find_first q l :
  (if find_first q l is Some _ then 1%nat else 0%nat) ≠ 0%nat →
  is_Some (find_first q l).
Proof. by destruct (find_first q l); eauto. Qed.

(** What a successful [update_user_password] does. *)
Lemma update_user_password_inr_inv user_id password_data sid w r w' :
  update_user_password user_id password_data sid w = (inr r, w') →
  let t := S (tick w) in
  let password :=
    hashpw (UserPasswordUpdate.new_password password_data) (gensalt t) in
  (∃ caller, get_user_from_session sid w = (inr (Some caller), next_tick w) ∧
             get_truthy caller "is_admin" = true) ∧
  is_Some (find_first [("id", VStr user_id)] (users w)) ∧
  w' = World
         (set_first [("id", VStr user_id)] "password" (VStr password)
            (users w))
         (remove_all [("user_id", VStr user_id)] (sessions w))
         (posts w) (S t) ∧
  r = password_updated.
Proof.
  unfold update_user_password. rewrite bind_run.
  destruct (get_user_from_session sid w) as [[e|[caller|]] w1] eqn:Hr;
    [done| |done].
  destruct (resolve_Some_inv _ _ _ _ Hr) as [-> _].
  destruct (negb (truthy_doc _)) eqn:Ht; [done|]. simpl.
  destruct (get_truthy caller "is_admin") eqn:Ha; [|done]. simpl.
  unfold_M. simpl.
  case_bool_decide as Hm; [done|]. apply is_Some_find_first in Hm.
  intros [= <- <-]. split_and!; eauto.
Qed.

Lemma admin_not_denied caller :
  get_truthy caller "is_admin" = true → not_admin (Some caller) = false.
Proof.
  unfold not_admin. intros H. simpl. rewrite H.
  destruct (decide (caller = ∅)) as [->|Hne]; [done|].
  by rewrite bool_decide_eq_false_2.
Qed.

(** An administrator changing the password of a stored user succeeds. *)
Lemma update_user_password_succeeds user_id password_data sid w caller w1
    user :
  get_user_from_session sid w = (inr (Some caller), w1) →
  get_truthy caller "is_admin" = true →
  find_first [("id", VStr user_id)] (users w) = Some user →
  ∃ w', update_user_password user_id password_data sid w
        = (inr password_updated, w').
Proof.
  intros Hr Ha%admin_not_denied Hf.
  assert (users w1 = users w) as Hu.
  { by rewrite <- (resolve_users sid w), Hr. }
  unfold update_user_password. rewrite bind_run, Hr.
  unfold not_admin in Ha. rewrite Ha.
  unfold_M. simpl. rewrite Hu, Hf. simpl. eauto.
Qed.

Lemma remove_all_field k v l d :
  d ∈ remove_all [(k, v)] l ↔ d ∈ l ∧ d !! k ≠ Some v.
Proof. by rewrite elem_of_remove_all, matches_field_false. Qed.

(** A token all of whose sessions belonged to [user_id] finds no session
    once the sessions of [user_id] have been deleted. *)
Lemma resolve_revoked token user_id w w' :
  sessions w' = remove_all [("user_id", VStr user_id)] (sessions w) →
  (∀ session,
     session ∈ sessions w →
     session !! "session_id" = Some (VStr token) →
     session !! "user_id" = Some (VStr user_id)) →
  get_user_from_session (Some token) w' = (inr None, w').
Proof.
  intros Hs Hown. apply resolve_absent. rewrite Hs.
  apply find_first_remove_all. intros d Hd Hm%matches_field.
  apply matches_field. by apply Hown.
Qed.

(** C2.  After a successful [update_user_password] on [user_id], the
    record found under that id is the one found before with [password]
    set to the hash of the new password, no other field of any record has
    changed, no session with that [user_id] is left while all other
    sessions are kept, and a token whose sessions all belonged to
    [user_id] resolves to [None]. *)
Theorem password_change_revokes user_id password_data sid w r w' :
  update_user_password user_id password_data sid w = (inr r, w') →
  let q := [("id", VStr user_id)] in
  let password :=
    hashpw (UserPasswordUpdate.new_password password_data)
      (gensalt (S (tick w))) in
  (∃ user,
     find_first q (users w) = Some user ∧
     find_first q (users w') = Some (<["password" := VStr password]> user)) ∧
  (∀ k, k ≠ "password" → (.!! k) <$> users w' = (.!! k) <$> users w) ∧
  (∀ session,
     session ∈ sessions w' ↔
     session ∈ sessions w ∧ session !! "user_id" ≠ Some (VStr user_id)) ∧
  (∀ token,
     (∀ session,
        session ∈ sessions w →
        session !! "session_id" = Some (VStr token) →
        session !! "user_id" = Some (VStr user_id)) →
     get_user_from_session (Some token) w' = (inr None, w')).
Proof.
  intros (_ & [user Hf] & -> & _)%update_user_password_inr_inv q password.
  subst q. simpl. split_and!.
  - exists user. split; [done|].
    rewrite find_first_set_first, Hf; [done|].
    apply not_elem_of_cons. split; [done|apply not_elem_of_nil].
  - intros k Hk. by apply set_first_field.
  - intros session. apply remove_all_field.
  - intros token Hown. by eapply resolve_revoked.
Qed.

(** ** Deleting a user *)

(** What a successful [delete_user] does. *)
Lemma delete_user_inr_inv user_id sid w r w' :
  delete_user user_id sid w = (inr r, w') →
  (∃ caller, get_user_from_session sid w = (inr (Some caller), next_tick w) ∧
             get_truthy caller "is_admin" = true) ∧
  (∃ target,
     find_first [("id", VStr user_id)] (users w) = Some target ∧
     target !! "username" ≠ Some (VStr "admin")) ∧
  w' = World
         (remove_first [("id", VStr user_id)] (users w))
         (remove_all [("user_id", VStr user_id)] (sessions w))
         (remove_all [("author_id", VStr user_id)] (posts w))
         (S (tick w)) ∧
  r = user_deleted.
Proof.
  unfold delete_user. rewrite bind_run.
  destruct (get_user_from_session sid w) as [[e|[caller|]] w1] eqn:Hr;
    [done| |done].
  destruct (resolve_Some_inv _ _ _ _ Hr) as [-> _].
  destruct (negb (truthy_doc _)) eqn:Ht; [done|]. simpl.
  destruct (get_truthy caller "is_admin") eqn:Ha; [|done]. simpl.
  unfold_M. simpl. rewrite project_nil_fmap, truthy_find.
  destruct (find_first _ (users w)) as [target|] eqn:Hf; simpl;
    rewrite ?Hf; [|done].
  case_bool_decide as Hn; simpl; [done|]. rewrite Hf. simpl.
  intros [= <- <-]. split_and!; eauto.
Qed.

(** An administrator deleting a stored user not named "admin" succeeds. *)
Lemma delete_user_succeeds user_id sid w caller w1 target :
  get_user_from_session sid w = (inr (Some caller), w1) →
  get_truthy caller "is_admin" = true →
  find_first [("id", VStr user_id)] (users w) = Some target →
  target !! "username" ≠ Some (VStr "admin") →
  ∃ w', delete_user user_id sid w = (inr user_deleted, w').
Proof.
  intros Hr Ha%admin_not_denied Hf Hn.
  assert (users w1 = users w) as Hu.
  { by rewrite <- (resolve_users sid w), Hr. }
  unfold delete_user. rewrite bind_run, Hr.
  unfold not_admin in Ha. rewrite Ha.
  unfold_M. simpl. rewrite Hu, Hf. simpl.
  rewrite (bool_decide_eq_false_2 (target !! _ = _)) by done.
  rewrite andb_false_r. simpl. rewrite Hu, Hf. simpl. eauto.
Qed.

Lemma unique_usernames_removed name l1 target l2 :
  unique_usernames (l1 ++ target :: l2) →
  target !! "username" = Some (VStr name) →
  find_first [("username", VStr name)] (l1 ++ l2) = None.
Proof.
  unfold unique_usernames. rewrite fmap_app, fmap_cons.
  intros (_ & Hl1 & [Hl2 _]%NoDup_cons)%NoDup_app Ht.
  apply find_first_None. intros d Hd.
  apply matches_field_false. intros Hn.
  apply elem_of_app in Hd as [Hd|Hd].
  - apply (Hl1 (d !! "username")).
    + by apply list_elem_of_fmap_2.
    + rewrite Hn, <- Ht. left.
  - apply Hl2. rewrite Ht, <- Hn. by apply list_elem_of_fmap_2.
Qed.

(** ** No answer carries a password *)

Lemma create_post_no_password post_data sid w r w' :
  create_post post_data sid w = (inr r, w') → r !! "password" = None.
Proof.
  unfold create_post. rewrite bind_run.
  destruct (get_user_from_session sid w) as [[e|user] w1]; [done|].
  unfold_M. crunch. all: by intros [= <- _].
Qed.

Lemma delete_post_inr_inv post_id sid w r w' :
  delete_post post_id sid w = (inr r, w') →
  r = {[ "message" := VStr "Post eliminato con successo" ]}.
Proof.
  unfold delete_post. rewrite bind_run.
  destruct (get_user_from_session sid w) as [[e|user] w1]; [done|].
  unfold_M. crunch. all: by intros [= <- _].
Qed.

(** C7.  No answer carries the [password] field of a user record: the
    dict [login] returns has the keys [id], [username] and [is_admin] and
    no other, with the values of the record found; the user that session
    resolution returns, and so the answer of [/auth/me], is a stored
    record without [_id] and [password]; so is every entry of the user
    listing; the record [create_user] returns has had [password] removed;
    and the other handlers answer with a new post or a fixed message. *)
Theorem password_never_returned :
  (∀ c w d ck w',
     login c w = (inr (d, ck), w') →
     dom d = {[ "id"; "username"; "is_admin" ]} ∧ d !! "password" = None ∧
     ∃ user, user ∈ users w ∧ d !! "id" = user !! "id" ∧
             d !! "username" = user !! "username" ∧
             d !! "is_admin" = user !! "is_admin") ∧
  (∀ sid w u w',
     get_user_from_session sid w = (inr (Some u), w') →
     u !! "password" = None ∧
     ∃ user, user ∈ users w ∧ u = project ["_id"; "password"] user) ∧
  (∀ sid w u w',
     get_current_user sid w = (inr u, w') → u !! "password" = None) ∧
  (∀ sid w l w',
     get_users sid w = (inr l, w') → ∀ u, u ∈ l → u !! "password" = None) ∧
  (∀ user_data sid w r w',
     create_user user_data sid w = (inr r, w') → r !! "password" = None) ∧
  (∀ post_data sid w r w',
     create_post post_data sid w = (inr r, w') → r !! "password" = None) ∧
  (∀ sid w r w', logout sid w = (inr r, w') → r = logged_out) ∧
  (∀ user_id sid w r w',
     delete_user user_id sid w = (inr r, w') → r = user_deleted) ∧
  (∀ user_id password_data sid w r w',
     update_user_password user_id password_data sid w = (inr r, w') →
     r = password_updated) ∧
  (∀ post_id sid w r w',
     delete_post post_id sid w = (inr r, w') →
     r = {[ "message" := VStr "Post eliminato con successo" ]}).
Proof.
  assert (∀ sid w u w',
            get_user_from_session sid w = (inr (Some u), w') →
            u !! "password" = None) as Hres.
  { intros sid w u w' (user & _ & ->)%resolve_projected.
    apply project_lookup_excluded. set_solver. }
  split_and!.
  - intros c w d ck w' (user & id & n & a & Hf & Hid & Hn & Ha & -> & _)
      %login_inr_inv.
    split_and!.
    + rewrite !dom_insert_L, dom_singleton_L. set_solver.
    + done.
    + exists user. apply find_first_Some in Hf as [Hin _].
      split_and!; [done|by rewrite Hid|by rewrite Hn|by rewrite Ha].
  - intros sid w u w' H. split; [by eapply Hres|by eapply resolve_projected].
  - intros sid w u w' H%get_current_user_inr_inv. by eapply Hres.
  - intros sid w l w' ->%get_users_inr_inv u Hu.
    apply (subseteq_take 1000) in Hu.
    apply list_elem_of_fmap in Hu as (user & -> & _).
    apply project_lookup_excluded. set_solver.
  - intros user_data sid w r w' H. apply create_user_inr_inv in H.
    destruct H as (_ & _ & _ & ->).
    rewrite lookup_delete_ne by done. apply lookup_delete_eq.
  - apply create_post_no_password.
  - intros sid w r w'. rewrite logout_run. by intros [= <- _].
  - by intros user_id sid w r w' (_ & _ & _ & ->)%delete_user_inr_inv.
  - by intros user_id password_data sid w r w'
      (_ & _ & _ & ->)%update_user_password_inr_inv.
  - apply delete_post_inr_inv.
Qed.

(** ** What each request does to the user store *)

Ltac after_resolve sid w :=
  rewrite bind_run;
  let Hu := fresh "Hu" in
  pose proof (resolve_users sid w) as Hu;
  destruct (get_user_from_session sid w) as [[?|?] ?]; simpl in Hu;
  [first [by simpl|by left]|].

Lemma login_users c w : users (login c w).2 = users w.
Proof. unfold login. unfold_M. crunch. Qed.

Lemma get_current_user_users sid w :
  users (get_current_user sid w).2 = users w.
Proof. unfold get_current_user. after_resolve sid w. unfold_M. crunch. Qed.

Lemma get_users_users sid w : users (get_users sid w).2 = users w.
Proof. unfold get_users. after_resolve sid w. unfold_M. crunch. Qed.

Lemma create_post_users post_data sid w :
  users (create_post post_data sid w).2 = users w.
Proof. unfold create_post. after_resolve sid w. unfold_M. crunch. Qed.

Lemma delete_post_users post_id sid w :
  users (delete_post post_id sid w).2 = users w.
Proof. unfold delete_post. after_resolve sid w. unfold_M. crunch. Qed.

Lemma delete_user_users user_id sid w :
  users (delete_user user_id sid w).2 = users w ∨
  users (delete_user user_id sid w).2
  = remove_first [("id", VStr user_id)] (users w).
Proof.
  unfold delete_user. after_resolve sid w. unfold_M.
  crunch; rewrite Hu; eauto.
Qed.

Lemma update_user_password_users user_id password_data sid w :
  users (update_user_password user_id password_data sid w).2 = users w ∨
  ∃ h, users (update_user_password user_id password_data sid w).2
       = set_first [("id", VStr user_id)] "password" (VStr h) (users w).
Proof.
  unfold update_user_password. after_resolve sid w. unfold_M.
  crunch; rewrite Hu; eauto.
Qed.

Lemma create_user_users user_data sid w :
  users (create_user user_data sid w).2 = users w ∨
  ∃ r, create_user user_data sid w
       = (inr r, (create_user user_data sid w).2).
Proof.
  destruct (create_user user_data sid w) as [[e|r] w'] eqn:Hc; [|eauto].
  left. revert Hc. unfold create_user. rewrite bind_run.
  pose proof (resolve_users sid w) as Hu.
  destruct (get_user_from_session sid w) as [[e'|user] w1]; simpl in Hu.
  { by intros [= <- <-]. }
  destruct (_ || _); [by intros [= <- <-]|].
  unfold_M. simpl. rewrite project_nil_fmap, truthy_find.
  destruct (find_first _ (users w1)); simpl; [by intros [= <- <-]|].
  rewrite create_user_dict_no_id. simpl.
  by rewrite lookup_insert_ne, lookup_insert_ne, lookup_insert_ne,
    lookup_insert_eq.
Qed.

Lemma elem_of_set_first q k v l x :
  x ∈ set_first q k v l → ∃ d, d ∈ l ∧ (x = d ∨ x = <[k := v]> d).
Proof.
  induction l as [|d l IH]; simpl; [by intros ?%elem_of_nil|].
  destruct (matches q d).
  - intros [->|Hx]%elem_of_cons.
    + exists d. split; [left|by right].
    + exists x. split; [by right|by left].
  - intros [->|Hx]%elem_of_cons.
    + exists d. split; [left|by left].
    + destruct (IH Hx) as (d' & Hd' & Hx'). exists d'. split; [by right|done].
Qed.

Lemma users_ok_append l d name :
  users_ok l →
  find_first [("username", VStr name)] l = None →
  d !! "username" = Some (VStr name) →
  (get_truthy d "is_admin" = true → name = "admin") →
  users_ok (l ++ [d]).
Proof.
  intros [Hu Ha] Hf Hn Hd. split.
  - unfold unique_usernames in *. rewrite fmap_app. simpl.
    apply NoDup_app. split_and!; [done| |apply NoDup_singleton].
    intros o (x & Ho & Hx)%list_elem_of_fmap Ho'%list_elem_of_singleton.
    rewrite find_first_None in Hf. specialize (Hf x Hx).
    apply matches_field_false in Hf. congruence.
  - intros x [Hx|Hx%list_elem_of_singleton]%elem_of_app Hx';
      [by apply Ha|]. subst x.
    rewrite Hn. by rewrite Hd.
Qed.

Lemma users_ok_remove_first q l : users_ok l → users_ok (remove_first q l).
Proof.
  intros [Hu Ha]. pose proof (remove_first_sublist q l) as Hs. split.
  - unfold unique_usernames in *. eapply sublist_NoDup; [done|].
    by apply fmap_sublist.
  - intros d Hd. apply Ha. by eapply elem_of_sublist.
Qed.

Lemma users_ok_set_password q v l :
  users_ok l → users_ok (set_first q "password" v l).
Proof.
  intros [Hu Ha]. split.
  - unfold unique_usernames in *. by rewrite set_first_field.
  - intros x (d & Hd & [->| ->])%elem_of_set_first; [by apply Ha|].
    unfold get_truthy. rewrite !lookup_insert_ne by done. by apply Ha.
Qed.

Lemma handle_users_ok r w : users_ok (users w) → users_ok (users (handle r w)).
Proof.
  intros Hok. destruct r; simpl.
  - unfold startup_event. rewrite create_default_admin_run. simpl.
    destruct (find_first _ (users w)) eqn:Hf; [done|]. simpl.
    by eapply users_ok_append.
  - by rewrite login_users.
  - rewrite logout_run. simpl. by destruct (truthy_str _).
  - by rewrite get_current_user_users.
  - by rewrite get_users_users.
  - destruct (create_user_users user_data session_id w) as [->|[r Hr]];
      [done|].
    destruct (create_user_inr_inv _ _ _ _ _ Hr) as (_ & Hf & -> & _).
    simpl. by eapply users_ok_append.
  - destruct (delete_user_users user_id session_id w) as [->| ->]; [done|].
    by apply users_ok_remove_first.
  - destruct (update_user_password_users user_id password_data session_id w)
      as [->|[h ->]]; [done|].
    by apply users_ok_set_password.
  - by rewrite create_post_users.
  - by rewrite delete_post_users.
Qed.

Lemma reachable_users_ok w : reachable w → users_ok (users w).
Proof.
  induction 1 as [|r w _ IH].
  - split; [apply NoDup_nil_2|]. by intros d ?%elem_of_nil.
  - by apply handle_users_ok.
Qed.

Lemma reachable_serve rs w : reachable w → reachable (serve rs w).
Proof.
  unfold serve. revert w. induction rs as [|r rs IH]; simpl; [done|].
  intros w Hw. apply IH. by constructor.
Qed.

Lemma handle_records_ok r w :
  Forall record_ok (users w) → Forall record_ok (users (handle r w)).
Proof.
  intros Hok. destruct r; simpl.
  - unfold startup_event. rewrite create_default_admin_run. simpl.
    destruct (find_first _ (users w)) eqn:Hf; [done|]. simpl.
    apply Forall_app. split; [done|]. apply Forall_singleton.
    by split_and!; eexists.
  - by rewrite login_users.
  - rewrite logout_run. simpl. by destruct (truthy_str _).
  - by rewrite get_current_user_users.
  - by rewrite get_users_users.
  - destruct (create_user_users user_data session_id w) as [->|[r Hr]];
      [done|].
    destruct (create_user_inr_inv _ _ _ _ _ Hr) as (_ & Hf & -> & _).
    simpl. apply Forall_app. split; [done|]. apply Forall_singleton.
    by split_and!; eexists.
  - destruct (delete_user_users user_id session_id w) as [->| ->]; [done|].
    apply Forall_forall. intros x Hx. eapply Forall_forall in Hok; [done|].
    eapply elem_of_sublist; [done|apply remove_first_sublist].
  - destruct (update_user_password_users user_id password_data session_id w)
      as [->|[h ->]]; [done|].
    apply Forall_forall. intros x (d & Hd & [->| ->])%elem_of_set_first.
    + by eapply Forall_forall in Hok.
    + eapply Forall_forall in Hok as (Hid & _ & Ha); [|done].
      split_and!.
      * by rewrite lookup_insert_ne.
      * exists h. apply lookup_insert_eq.
      * by rewrite lookup_insert_ne.
  - by rewrite create_post_users.
  - by rewrite delete_post_users.
Qed.

Lemma reachable_records_ok w : reachable w → Forall record_ok (users w).
Proof.
  induction 1 as [|r w _ IH]; [by apply Forall_nil|].
  by apply handle_records_ok.
Qed.

Lemma find_first_unique name l d :
  unique_usernames l → d ∈ l → d !! "username" = Some (VStr name) →
  find_first [("username", VStr name)] l = Some d.
Proof.
  unfold unique_usernames, find_first.
  induction l as [|x l IH]; [by intros _ ?%elem_of_nil|].
  rewrite fmap_cons. intros [Hx Hl]%NoDup_cons Hd Hn. cbn [List.find].
  apply elem_of_cons in Hd as [->|Hd].
  - by rewrite (proj2 (matches_field _ _ _) Hn).
  - destruct (matches _ x) eqn:E; [|by apply IH].
    apply matches_field in E. exfalso. apply Hx.
    rewrite E, <- Hn. by apply list_elem_of_fmap_2.
Qed.

(** ** Logging in, and logging in no more *)

Section Bcrypt.

(** bcrypt recognises the password a hash was made from, whatever the
    salt. *)
Hypothesis checkpw_hashpw :
  ∀ password salt, checkpw password (hashpw password salt) = true.

(** C5.  A login that fails for an unknown username and one that fails for
    a wrong password end in the same exception, 401 with one fixed
    message, and in the same unchanged world; that exception is the only
    HTTP error [login] raises.  The password a stored hash was made from
    logs in: the answer is the identity of the record found, with a cookie
    for the new session; and in every world the service can reach, any
    stored record is found by its username and has the fields the answer
    needs. *)
Theorem login_failures_indistinguishable c w :
  let q := [("username", VStr (UserLogin.username c))] in
  (find_first q (users w) = None →
   login c w = (inl invalid_credentials, w)) ∧
  (∀ user h,
     find_first q (users w) = Some user →
     user !! "password" = Some (VStr h) →
     checkpw (UserLogin.password c) h = false →
     login c w = (inl invalid_credentials, w)) ∧
  (∀ status detail w',
     login c w = (inl (HTTPException status detail), w') →
     HTTPException status detail = invalid_credentials ∧ w' = w) ∧
  (∀ user salt id is_admin,
     find_first q (users w) = Some user →
     user !! "password"
       = Some (VStr (hashpw (UserLogin.password c) salt)) →
     user !! "id" = Some id →
     user !! "is_admin" = Some is_admin →
     ∃ session,
       login c w
       = (inr ({[ "id" := id; "username" := VStr (UserLogin.username c);
                  "is_admin" := is_admin ]},
               set_cookie "session_id" (uuid4 (tick w)) true
                 (SESSION_EXPIRY_HOURS * 3600) "lax"),
          World (users w) (sessions w ++ [session]) (posts w)
            (4 + tick w)) ∧
       session !! "session_id" = Some (VStr (uuid4 (tick w))) ∧
       session !! "user_id" = Some id) ∧
  (reachable w →
   ∀ user salt,
     user ∈ users w →
     user !! "username" = Some (VStr (UserLogin.username c)) →
     user !! "password"
       = Some (VStr (hashpw (UserLogin.password c) salt)) →
     ∃ id is_admin session,
       user !! "id" = Some id ∧ user !! "is_admin" = Some is_admin ∧
       login c w
       = (inr ({[ "id" := id; "username" := VStr (UserLogin.username c);
                  "is_admin" := is_admin ]},
               set_cookie "session_id" (uuid4 (tick w)) true
                 (SESSION_EXPIRY_HOURS * 3600) "lax"),
          World (users w) (sessions w ++ [session]) (posts w)
            (4 + tick w))).
Proof.
  intros q. split_and!.
  - apply login_unknown.
  - apply login_wrong_password.
  - apply login_http_error.
  - intros user salt id is_admin Hf Hp Hid Hadm. eexists. split.
    + eapply login_success; eauto.
    + split; [|by rewrite lookup_insert_ne, lookup_insert_ne, lookup_insert_eq].
      by rewrite lookup_insert_ne, lookup_insert_eq.
  - intros Hw user salt Hin Hn Hp.
    destruct (reachable_users_ok w Hw) as [Hu _].
    pose proof (reachable_records_ok w Hw) as Hr.
    eapply Forall_forall in Hr as ([id Hid] & _ & [is_admin Ha]); [|done].
    exists id, is_admin. eexists. split_and!; [done..|].
    eapply login_success; eauto. by apply find_first_unique.
Qed.

End Bcrypt.

(** C6.  After a successful [delete_user] on [user_id]: the first record
    with that id is gone from the user store and the rest is as before;
    no session with that [user_id] and no post with that [author_id] is
    left, the others are kept; a token whose sessions all belonged to
    [user_id] resolves to [None]; and, usernames being unique, as they are
    in every world the service can reach, a login under the deleted
    record's username fails as for an unknown user. *)
Theorem delete_user_cascades user_id sid w r w' :
  delete_user user_id sid w = (inr r, w') →
  (∃ target l1 l2,
     users w = l1 ++ target :: l2 ∧ users w' = l1 ++ l2 ∧
     target !! "id" = Some (VStr user_id) ∧
     (∀ x, x ∈ l1 → x !! "id" ≠ Some (VStr user_id)) ∧
     ∀ name c,
       unique_usernames (users w) ∨ reachable w →
       target !! "username" = Some (VStr name) →
       UserLogin.username c = name →
       login c w' = (inl invalid_credentials, w')) ∧
  (∀ session,
     session ∈ sessions w' ↔
     session ∈ sessions w ∧ session !! "user_id" ≠ Some (VStr user_id)) ∧
  (∀ post,
     post ∈ posts w' ↔
     post ∈ posts w ∧ post !! "author_id" ≠ Some (VStr user_id)) ∧
  (∀ token,
     (∀ session,
        session ∈ sessions w →
        session !! "session_id" = Some (VStr token) →
        session !! "user_id" = Some (VStr user_id)) →
     get_user_from_session (Some token) w' = (inr None, w')).
Proof.
  intros (_ & (target & Hf & _) & -> & _)%delete_user_inr_inv.
  simpl. split_and!.
  - destruct (remove_first_split _ _ _ Hf) as (l1 & l2 & Hl & Hr & Hl1).
    exists target, l1, l2. split_and!; [done..| | |].
    + apply find_first_Some in Hf as [_ Hm]. by apply matches_field.
    + intros x Hx. apply matches_field_false. by apply Hl1.
    + intros name c Hu Hn Hc. apply login_unknown. simpl.
      rewrite Hr, Hc. eapply unique_usernames_removed; [|done].
      rewrite <- Hl. destruct Hu as [Hu|Hw]; [done|].
      by apply reachable_users_ok.
  - intros session. apply remove_all_field.
  - intros post. apply remove_all_field.
  - intros token Hown. by eapply resolve_revoked.
Qed.

(** ** Who can be an administrator *)

Lemma admins_nil l :
  (∀ d, d ∈ l → get_truthy d "is_admin" = false) → admins l = [].
Proof.
  unfold admins. induction l as [|d l IH]; simpl; [done|].
  intros H. rewrite (H d) by left. apply IH. intros x Hx. apply H. by right.
Qed.

Lemma users_ok_one_admin l : users_ok l → (length (admins l) ≤ 1)%nat.
Proof.
  induction l as [|d l IH]; simpl; [lia|].
  intros [Hu Ha]. unfold unique_usernames in Hu. rewrite fmap_cons in Hu.
  apply NoDup_cons in Hu as [Hd Hu].
  destruct (get_truthy d "is_admin") eqn:E; simpl.
  - rewrite admins_nil; [done|]. intros x Hx.
    destruct (get_truthy x "is_admin") eqn:Ex; [|done].
    exfalso. apply Hd. rewrite (Ha d) by (done || left).
    rewrite <- (Ha x) by (done || by right).
    by apply list_elem_of_fmap_2.
  - apply IH. split; [done|]. intros x Hx. apply Ha. by right.
Qed.

(** C10.  A successful [create_user] appends one record, whose [is_admin]
    is false whoever the caller is, and answers with a record whose
    [is_admin] is false.  So in every world the service can reach from an
    empty database, a user record whose [is_admin] is true is named
    "admin", and there is at most one such record. *)
Theorem only_seed_is_admin :
  (∀ user_data sid w r w',
     create_user user_data sid w = (inr r, w') →
     ∃ new_user,
       users w' = users w ++ [new_user] ∧
       new_user !! "username"
         = Some (VStr (UserCreate.username user_data)) ∧
       new_user !! "is_admin" = Some (VBool false) ∧
       r !! "is_admin" = Some (VBool false)) ∧
  (∀ w, reachable w →
        ∀ d, d ∈ users w → get_truthy d "is_admin" = true →
             d !! "username" = Some (VStr "admin")) ∧
  (∀ w, reachable w → (length (admins (users w)) ≤ 1)%nat).
Proof.
  split_and!.
  - intros user_data sid w r w' (_ & _ & -> & ->)%create_user_inr_inv.
    eexists. split_and!; [done..|].
    by rewrite lookup_delete_ne, lookup_delete_ne.
  - intros w Hw. by apply reachable_users_ok.
  - intros w Hw. by apply users_ok_one_admin, reachable_users_ok.
Qed.

(** * Further properties of the handlers *)

(** ** The guard of the handlers open to every user *)

(** X1.  The handlers that only ask for a logged-in user ([/auth/me],
    the two post listings, [create_post], [delete_post]) answer a caller
    whose cookie resolves to no user with 401 "Non autenticato", and touch
    nothing beyond what the resolution did. *)
Theorem authenticated_guard_denies sid w user w1 :
  get_user_from_session sid w = (inr user, w1) →
  truthy_doc user = false →
  get_current_user sid w = (inl not_authenticated, w1) ∧
  get_posts sid w = (inl not_authenticated, w1) ∧
  (∀ user_id, get_user_posts user_id sid w = (inl not_authenticated, w1)) ∧
  (∀ post_data, create_post post_data sid w = (inl not_authenticated, w1)) ∧
  (∀ post_id, delete_post post_id sid w = (inl not_authenticated, w1)).
Proof.
  intros Hr Ht.
  unfold get_current_user, get_posts, get_user_posts, create_post,
    delete_post.
  split_and!; intros; by rewrite bind_run, Hr, Ht.
Qed.

(** ** The footprint of session resolution and of logout *)

Lemma elem_of_remove_first q l d :
  matches q d = false → d ∈ remove_first q l ↔ d ∈ l.
Proof.
  intros Hd. induction l as [|x l IH]; simpl; [done|].
  destruct (matches q x) eqn:E.
  - rewrite elem_of_cons. split; [by right|]. intros [->|?]; [|done].
    congruence.
  - by rewrite !elem_of_cons, IH.
Qed.

Lemma length_remove_first q l :
  (length l ≤ S (length (remove_first q l)))%nat.
Proof.
  induction l as [|x l IH]; simpl; [lia|].
  destruct (matches q x); simpl; lia.
Qed.

Lemma resolve_sessions sid w :
  sessions (get_user_from_session sid w).2 = sessions w ∨
  sessions (get_user_from_session sid w).2
  = remove_first [("session_id", VStr (default EmptyString sid))]
      (sessions w).
Proof. unfold get_user_from_session. unfold_M. crunch; eauto. Qed.

(** X2.  Session resolution never writes to the users or the posts; of the
    sessions it deletes at most one, and never one that carries another
    token than the cookie's; and without a cookie, or with an empty one,
    it answers [None] and leaves the world, clock included, alone. *)
Theorem resolve_footprint sid w :
  let q := [("session_id", VStr (default EmptyString sid))] in
  let w1 := (get_user_from_session sid w).2 in
  users w1 = users w ∧ posts w1 = posts w ∧
  (sessions w1 = sessions w ∨ sessions w1 = remove_first q (sessions w)) ∧
  (length (sessions w) ≤ S (length (sessions w1)))%nat ∧
  (∀ session,
     session !! "session_id" ≠ Some (VStr (default EmptyString sid)) →
     session ∈ sessions w1 ↔ session ∈ sessions w) ∧
  (truthy_str sid = false → get_user_from_session sid w = (inr None, w)).
Proof.
  intros q w1. unfold w1.
  split_and!.
  - apply resolve_users.
  - apply resolve_posts.
  - apply resolve_sessions.
  - destruct (resolve_sessions sid w) as [-> | ->]; [lia|].
    apply length_remove_first.
  - intros session Hs.
    destruct (resolve_sessions sid w) as [-> | ->]; [done|].
    apply elem_of_remove_first. by apply matches_field_false.
  - intros Ht. unfold get_user_from_session. by rewrite Ht.
Qed.

(** X3.  [logout] deletes at most one session and never one that carries
    another token than the cookie's. *)
Theorem logout_spares_other_sessions sid w :
  let w1 := (logout sid w).2 in
  (length (sessions w) ≤ S (length (sessions w1)))%nat ∧
  (∀ session,
     session !! "session_id" ≠ Some (VStr (default EmptyString sid)) →
     session ∈ sessions w1 ↔ session ∈ sessions w).
Proof.
  intros w1. unfold w1. rewrite logout_run. simpl.
  destruct (truthy_str sid); simpl; [|split; [lia|done]].
  split; [apply length_remove_first|].
  intros session Hs. apply elem_of_remove_first.
  by apply matches_field_false.
Qed.

(** ** The errors of user management *)

(** X4.  An administrator creating a user under a username that some
    record already carries is answered 400 "Nome utente già esistente";
    nothing is stored and no identifier or salt is drawn. *)
Theorem create_user_duplicate user_data sid w caller w1 existing :
  get_user_from_session sid w = (inr (Some caller), w1) →
  get_truthy caller "is_admin" = true →
  find_first [("username", VStr (UserCreate.username user_data))] (users w)
    = Some existing →
  create_user user_data sid w = (inl username_taken, w1) ∧
  w1 = next_tick w.
Proof.
  intros Hr Ha%admin_not_denied Hf.
  destruct (resolve_Some_inv _ _ _ _ Hr) as [-> _].
  unfold create_user. rewrite bind_run, Hr.
  unfold not_admin in Ha. rewrite Ha.
  unfold_M. simpl. rewrite Hf. simpl.
  by rewrite bool_decide_eq_false_2 by (by eapply find_first_nonempty).
Qed.

(** X5.  An administrator deleting an id that no record carries is
    answered 404 "Utente non trovato", and no user, session or post is
    deleted. *)
Theorem delete_user_unknown user_id sid w caller w1 :
  get_user_from_session sid w = (inr (Some caller), w1) →
  get_truthy caller "is_admin" = true →
  find_first [("id", VStr user_id)] (users w) = None →
  delete_user user_id sid w = (inl user_not_found, next_tick w).
Proof.
  intros Hr Ha%admin_not_denied Hf.
  destruct (resolve_Some_inv _ _ _ _ Hr) as [-> _].
  unfold delete_user. rewrite bind_run, Hr.
  unfold not_admin in Ha. rewrite Ha.
  unfold_M. simpl. rewrite ?Hf. simpl.
  by rewrite Hf, (remove_first_None _ _ Hf).
Qed.

(** X6.  An administrator changing the password of an id that no record
    carries is answered 404 "Utente non trovato"; no record and no session
    is touched, though a salt has been drawn for the hash. *)
Theorem update_user_password_unknown user_id password_data sid w caller w1 :
  get_user_from_session sid w = (inr (Some caller), w1) →
  get_truthy caller "is_admin" = true →
  find_first [("id", VStr user_id)] (users w) = None →
  update_user_password user_id password_data sid w
  = (inl user_not_found, next_tick (next_tick w)).
Proof.
  intros Hr Ha%admin_not_denied Hf.
  destruct (resolve_Some_inv _ _ _ _ Hr) as [-> _].
  unfold update_user_password. rewrite bind_run, Hr.
  unfold not_admin in Ha. rewrite Ha.
  unfold_M. simpl. rewrite ?Hf. simpl.
  by rewrite ?Hf, (set_first_None _ _ _ _ Hf).
Qed.

(** ** Posts *)

Lemma post_dict_no_id (a b c d e : value) :
  ({[ "id" := a; "author_id" := b; "author_username" := c; "content" := d;
      "created_at" := e ]} : doc) !! "_id" = None.
Proof. reflexivity. Qed.

(** What a successful [create_post] does. *)
Lemma create_post_inr_inv post_data sid w r w' :
  create_post post_data sid w = (inr r, w') →
  ∃ caller id name,
    get_user_from_session sid w = (inr (Some caller), next_tick w) ∧
    caller !! "id" = Some id ∧ caller !! "username" = Some name ∧
    let t := S (tick w) in
    let post : doc :=
      {[ "_id" := VOid (2 + t);
         "id" := VStr (uuid4 t);
         "author_id" := id;
         "author_username" := name;
         "content" := VStr (PostCreate.content post_data);
         "created_at" := VStr (isoformat (clock (1 + t))) ]} in
    w' = World (users w) (sessions w) (posts w ++ [post]) (3 + t) ∧
    r = delete "_id" post.
Proof.
  unfold create_post. rewrite bind_run.
  destruct (get_user_from_session sid w) as [[e|[caller|]] w1] eqn:Hr;
    [done| |done].
  destruct (resolve_Some_inv _ _ _ _ Hr) as [-> _].
  destruct (negb (truthy_doc _)) eqn:Ht; [done|].
  unfold_M. simpl.
  destruct (caller !! "id") as [id|] eqn:Hid; simpl; [|done].
  destruct (caller !! "username") as [name|] eqn:Hn; simpl; [|done].
  rewrite post_dict_no_id. intros [= <- <-].
  by exists caller, id, name.
Qed.

Lemma project_public k d :
  k ≠ "_id" → k ≠ "password" →
  project ["_id"; "password"] d !! k = d !! k.
Proof. intros. unfold project. simpl. by rewrite !lookup_delete_ne. Qed.

(** X7.  A successful [create_post] appends one post to the store and
    touches nothing else; the post carries the caller's text, and as
    author the [id] and [username] of the stored user record the caller's
    session resolved to; the answer is the stored post without [_id]. *)
Theorem create_post_records_author post_data sid w r w' :
  create_post post_data sid w = (inr r, w') →
  ∃ user post,
    user ∈ users w ∧
    users w' = users w ∧ sessions w' = sessions w ∧
    posts w' = posts w ++ [post] ∧
    post !! "author_id" = user !! "id" ∧
    post !! "author_username" = user !! "username" ∧
    post !! "content" = Some (VStr (PostCreate.content post_data)) ∧
    r = delete "_id" post ∧ r !! "_id" = None.
Proof.
  intros (caller & id & name & Hr & Hid & Hn & -> & ->)%create_post_inr_inv.
  destruct (resolve_projected _ _ _ _ Hr) as (user & Hin & ->).
  rewrite project_public in Hid, Hn by done.
  eexists user, _. by split_and!.
Qed.

(** X8.  [delete_post] on behalf of a logged-in caller: an id that no post
    carries is answered 404 "Post non trovato"; a post of another author
    is answered 403 "Accesso negato" to a caller who is not an
    administrator, and stays; the author's own post, or any post for an
    administrator, is deleted, it and no other. *)
Theorem delete_post_rules post_id sid w caller w1 :
  get_user_from_session sid w = (inr (Some caller), w1) →
  caller ≠ ∅ →
  let q := [("id", VStr post_id)] in
  (find_first q (posts w) = None →
   delete_post post_id sid w = (inl post_not_found, w1)) ∧
  (∀ post author id,
     find_first q (posts w) = Some post →
     post !! "author_id" = Some author →
     caller !! "id" = Some id →
     (author ≠ id → get_truthy caller "is_admin" = false →
      delete_post post_id sid w = (inl access_denied, w1)) ∧
     (author = id ∨ get_truthy caller "is_admin" = true →
      ∃ l1 l2,
        posts w = l1 ++ post :: l2 ∧
        delete_post post_id sid w
        = (inr post_deleted,
           World (users w) (sessions w) (l1 ++ l2) (S (tick w))))).
Proof.
  intros Hr Hne q. subst q.
  destruct (resolve_Some_inv _ _ _ _ Hr) as [-> _].
  assert (∀ A (m1 m2 : M A),
            (if negb (truthy_doc (Some caller)) then m1 else m2) = m2) as Ht.
  { intros. simpl. by rewrite bool_decide_eq_false_2. }
  split.
  - intros Hf. unfold delete_post. rewrite bind_run, Hr, Ht.
    unfold_M. simpl. by rewrite Hf.
  - intros post author id Hf Hau Hid.
    assert (post ≠ ∅) as Hpost by (by eapply find_first_nonempty).
    split.
    + intros Hneq Hadm. unfold delete_post. rewrite bind_run, Hr, Ht.
      unfold_M. simpl. rewrite Hf. simpl.
      rewrite bool_decide_eq_false_2 by done. simpl.
      rewrite Hau, Hid, Hadm. simpl.
      by rewrite bool_decide_eq_true_2.
    + intros Hok.
      destruct (remove_first_split _ _ _ Hf) as (l1 & l2 & Hl & Hrm & _).
      exists l1, l2. split; [done|].
      unfold delete_post. rewrite bind_run, Hr, Ht.
      unfold_M. simpl. rewrite Hf. simpl.
      rewrite bool_decide_eq_false_2 by done. simpl.
      rewrite Hau, Hid. simpl.
      assert (bool_decide (author ≠ id)
              && negb (get_truthy caller "is_admin") = false) as ->.
      { destruct Hok as [->| ->]; [|apply andb_false_r].
        by rewrite bool_decide_eq_false_2 by (by intros ?). }
      simpl. by rewrite Hrm.
Qed.

(** ** Logging in after the user store has changed *)

Lemma find_first_set_first_same q q' k v l d :
  k ∉ q'.*1 →
  find_first q l = Some d → find_first q' l = Some d →
  find_first q' (set_first q k v l) = Some (<[k := v]> d).
Proof.
  intros Hk. unfold find_first.
  induction l as [|x l IH]; simpl; [done|].
  destruct (matches q x) eqn:Eq; simpl.
  - intros [= ->]. rewrite matches_insert_ne by done.
    destruct (matches q' d) eqn:Eq'; [done|].
    intros [_ Hm]%find_first_Some. congruence.
  - destruct (matches q' x) eqn:Eq'; [|done].
    intros [_ Hm]%find_first_Some [= ->]. congruence.
Qed.

Section BcryptAgain.

Hypothesis checkpw_hashpw :
  ∀ password salt, checkpw password (hashpw password salt) = true.

(** X9.  The user that [create_user] has just created logs in with the
    username and password it was created with; the identity [login]
    answers has the [id] [create_user] answered and is no
    administrator's. *)
Theorem create_user_then_login user_data sid w r w' :
  create_user user_data sid w = (inr r, w') →
  ∃ identity ck w'',
    login (UserLogin.Build (UserCreate.username user_data)
             (UserCreate.password user_data)) w'
    = (inr (identity, ck), w'') ∧
    identity !! "id" = r !! "id" ∧ is_Some (r !! "id") ∧
    identity !! "username" = Some (VStr (UserCreate.username user_data)) ∧
    identity !! "is_admin" = Some (VBool false).
Proof.
  intros (_ & Hf & -> & ->)%create_user_inr_inv.
  eexists _, _, _. split.
  - eapply login_success; simpl.
    + apply find_first_app_None; [done|]. by apply matches_field.
    + reflexivity.
    + apply checkpw_hashpw.
    + reflexivity.
    + reflexivity.
  - by split_and!.
Qed.

(** X10.  On a user store without a record named "admin", the bootstrap
    makes the login admin/admin succeed, as an administrator. *)
Theorem startup_then_admin_login w :
  find_first [("username", VStr "admin")] (users w) = None →
  ∃ identity ck w',
    login (UserLogin.Build "admin" "admin") (startup_event w).2
    = (inr (identity, ck), w') ∧
    identity !! "username" = Some (VStr "admin") ∧
    identity !! "is_admin" = Some (VBool true).
Proof.
  intros Hf. unfold startup_event. rewrite create_default_admin_run, Hf.
  eexists _, _, _. split.
  - eapply login_success; simpl.
    + apply find_first_app_None; [done|]. by apply matches_field.
    + reflexivity.
    + apply checkpw_hashpw.
    + reflexivity.
    + reflexivity.
  - by split_and!.
Qed.

(** X11.  After a successful [update_user_password], the user whose
    password was changed, if found by username as by id (as in every world
    the service can reach), logs in with the new password, and a password
    that bcrypt does not recognise in the new hash, the old one for
    instance, is refused. *)
Theorem password_change_then_login user_id password_data sid w r w' user
    name is_admin :
  update_user_password user_id password_data sid w = (inr r, w') →
  find_first [("id", VStr user_id)] (users w) = Some user →
  user !! "username" = Some (VStr name) →
  user !! "is_admin" = Some is_admin →
  find_first [("username", VStr name)] (users w) = Some user ∨ reachable w →
  let new := UserPasswordUpdate.new_password password_data in
  (∃ ck w'',
     login (UserLogin.Build name new) w'
     = (inr ({[ "id" := VStr user_id; "username" := VStr name;
                "is_admin" := is_admin ]}, ck), w'')) ∧
  (∀ old,
     checkpw old (hashpw new (gensalt (S (tick w)))) = false →
     login (UserLogin.Build name old) w' = (inl invalid_credentials, w')).
Proof.
  intros (_ & _ & -> & _)%update_user_password_inr_inv Hf Hn Ha Hu new.
  assert (find_first [("username", VStr name)] (users w) = Some user) as Hf'.
  { destruct Hu as [?|Hw]; [done|].
    apply find_first_unique; [by apply reachable_users_ok| |done].
    by apply find_first_Some in Hf as [? _]. }
  assert (user !! "id" = Some (VStr user_id)) as Hid.
  { apply find_first_Some in Hf as [_ Hm]. by apply matches_field. }
  assert (find_first [("username", VStr name)]
            (set_first [("id", VStr user_id)] "password"
               (VStr (hashpw new (gensalt (S (tick w))))) (users w))
          = Some (<["password" :=
                      VStr (hashpw new (gensalt (S (tick w))))]> user))
    as Hnew.
  { apply find_first_set_first_same; [|done..].
    apply not_elem_of_cons. split; [done|apply not_elem_of_nil]. }
  split.
  - eexists _, _. eapply login_success; simpl.
    + exact Hnew.
    + apply lookup_insert_eq.
    + apply checkpw_hashpw.
    + by rewrite lookup_insert_ne.
    + by rewrite lookup_insert_ne.
  - intros old Hold. eapply login_wrong_password; simpl.
    + exact Hnew.
    + apply lookup_insert_eq.
    + done.
Qed.

End BcryptAgain.

(** ** A session, from login to resolution *)

(** What a successful [login] leaves behind. *)
Lemma login_inr_world c w identity ck w' :
  login c w = (inr (identity, ck), w') →
  ∃ user id,
    find_first [("username", VStr (UserLogin.username c))] (users w)
      = Some user ∧
    user !! "id" = Some id ∧
    w' = World (users w)
           (sessions w ++
            [ <["_id" := VOid (3 + tick w)]>
                {[ "session_id" := VStr (uuid4 (tick w));
                   "user_id" := id;
                   "created_at" := VStr (isoformat (clock (2 + tick w)));
                   "expires_at" :=
                     VStr (isoformat
                             (clock (1 + tick w)
                              + timedelta_hours SESSION_EXPIRY_HOURS)) ]} ])
           (posts w) (4 + tick w).
Proof.
  unfold login. unfold_M. simpl.
  destruct (find_first _ (users w)) as [user|] eqn:Hf; simpl; [|done].
  rewrite bool_decide_eq_false_2 by (by eapply find_first_nonempty).
  simpl.
  destruct (user !! "password") as [[h| |]|]; simpl; try done.
  destruct (checkpw _ h); simpl; [|done].
  destruct (user !! "id") as [id|] eqn:Hid; simpl; [|done].
  rewrite session_dict_no_id.
  destruct (user !! "username") as [username|] eqn:Hn; simpl; [|done].
  destruct (user !! "is_admin") as [is_admin|] eqn:Ha; simpl; [|done].
  intros [= <- <- <-]. by exists user, id.
Qed.

Section Iso.

(** [fromisoformat] reads back what [isoformat] printed. *)
Hypothesis fromisoformat_isoformat :
  ∀ t, fromisoformat (isoformat t) = Some t.

(** X12.  The cookie a successful [login] sets resolves, right after, to
    the record that logged in, without [_id] and [password], provided the
    token drawn is not empty and not already that of a stored session,
    the record is the one found under its own id, and the clock read by
    the resolution is not past the expiry, 24 hours after the clock read
    by [login]. *)
Theorem login_then_resolve c w identity ck w' user :
  login c w = (inr (identity, ck), w') →
  find_first [("username", VStr (UserLogin.username c))] (users w)
    = Some user →
  (∀ id, user !! "id" = Some id →
         find_first [("id", id)] (users w) = Some user) →
  uuid4 (tick w) ≠ EmptyString →
  find_first [("session_id", VStr (uuid4 (tick w)))] (sessions w) = None →
  clock (tick w') ≤ clock (1 + tick w) + timedelta_hours SESSION_EXPIRY_HOURS →
  ck = set_cookie "session_id" (uuid4 (tick w)) true
         (SESSION_EXPIRY_HOURS * 3600) "lax" ∧
  get_user_from_session (Some (uuid4 (tick w))) w'
  = (inr (Some (project ["_id"; "password"] user)), next_tick w') ∧
  identity !! "id" = project ["_id"; "password"] user !! "id" ∧
  identity !! "username" = project ["_id"; "password"] user !! "username" ∧
  identity !! "is_admin" = project ["_id"; "password"] user !! "is_admin".
Proof.
  intros Hlogin Hf Hbyid Htok Hfresh Hclock.
  destruct (login_inr_inv _ _ _ _ _ Hlogin)
    as (user' & id & n & a & Hf' & Hid & Hn & Ha & -> & ->).
  destruct (login_inr_world _ _ _ _ _ Hlogin)
    as (user'' & id' & Hf'' & Hid' & ->).
  assert (user' = user) as -> by congruence.
  assert (user'' = user) as -> by congruence.
  assert (id' = id) as -> by congruence.
  split; [done|]. split.
  - set (expiry := clock (1 + tick w) + timedelta_hours SESSION_EXPIRY_HOURS)
      in *.
    set (session := (<["_id" := VOid (3 + tick w)]>
                       {[ "session_id" := VStr (uuid4 (tick w));
                          "user_id" := id;
                          "created_at" :=
                            VStr (isoformat (clock (2 + tick w)));
                          "expires_at" := VStr (isoformat expiry) ]}) : doc).
    rewrite (resolve_present (uuid4 (tick w)) _ session (isoformat expiry)
               expiry id); simpl.
    + rewrite bool_decide_eq_false_2 by (simpl in Hclock; lia).
      by rewrite (Hbyid id Hid).
    + done.
    + apply find_first_app_None; [done|]. by apply matches_field.
    + reflexivity.
    + apply fromisoformat_isoformat.
    + reflexivity.
  - rewrite !project_public by done. by rewrite Hid, Hn, Ha.
Qed.

End Iso.

(** ** The post listings *)

Lemma filter_matches_nil (l : list doc) : List.filter (matches []) l = l.
Proof. induction l as [|d l IH]; simpl; [done|]. by rewrite IH. Qed.

Lemma project_id d : project ["_id"] d = delete "_id" d.
Proof. reflexivity. Qed.

Lemma get_posts_inr_inv sid w l w' :
  get_posts sid w = (inr l, w') →
  w' = next_tick w ∧
  l = take 1000 (delete "_id" <$> sort_desc "created_at" (posts w)).
Proof.
  unfold get_posts. rewrite bind_run.
  destruct (get_user_from_session sid w) as [[e|[caller|]] w1] eqn:Hr;
    [done| |done].
  destruct (resolve_Some_inv _ _ _ _ Hr) as [-> _].
  destruct (negb _); [done|]. unfold find_sort_to_list. simpl.
  rewrite filter_matches_nil. by intros [= <- <-].
Qed.

Lemma get_user_posts_inr_inv user_id sid w l w' :
  get_user_posts user_id sid w = (inr l, w') →
  w' = next_tick w ∧
  l = take 1000
        (delete "_id" <$>
         sort_desc "created_at"
           (List.filter (matches [("author_id", VStr user_id)]) (posts w))).
Proof.
  unfold get_user_posts. rewrite bind_run.
  destruct (get_user_from_session sid w) as [[e|[caller|]] w1] eqn:Hr;
    [done| |done].
  destruct (resolve_Some_inv _ _ _ _ Hr) as [-> _].
  destruct (negb _); [done|]. unfold find_sort_to_list. simpl.
  by intros [= <- <-].
Qed.

Section Sorting.

(** Sorting gives the documents it was given, in some order. *)
Hypothesis sort_desc_perm : ∀ key l, sort_desc key l ≡ₚ l.

(** X13.  A successful post listing writes nothing.  Every entry of
    [get_posts] is a stored post without its [_id], and with at most 1000
    posts stored each of them is listed once; every entry of
    [get_user_posts] is a stored post of the author asked for, without its
    [_id], and with at most 1000 posts of that author none is missing. *)
Theorem listings_return_stored_posts :
  (∀ sid w l w',
     get_posts sid w = (inr l, w') →
     w' = next_tick w ∧
     (∀ p, p ∈ l → ∃ post, post ∈ posts w ∧ p = delete "_id" post) ∧
     ((length (posts w) ≤ 1000)%nat → l ≡ₚ delete "_id" <$> posts w)) ∧
  (∀ user_id sid w l w',
     get_user_posts user_id sid w = (inr l, w') →
     w' = next_tick w ∧
     (∀ p, p ∈ l →
           ∃ post, post ∈ posts w ∧
                   post !! "author_id" = Some (VStr user_id) ∧
                   p = delete "_id" post) ∧
     ((count_matches [("author_id", VStr user_id)] (posts w) ≤ 1000)%nat →
      ∀ post, post ∈ posts w →
              post !! "author_id" = Some (VStr user_id) →
              delete "_id" post ∈ l)).
Proof.
  split.
  - intros sid w l w' [-> ->]%get_posts_inr_inv. split_and!; [done| |].
    + intros p Hp. apply (subseteq_take 1000) in Hp.
      apply list_elem_of_fmap in Hp as (post & -> & Hp).
      exists post. by rewrite sort_desc_perm in Hp.
    + intros Hlen. rewrite take_ge.
      * by rewrite sort_desc_perm.
      * by rewrite length_fmap, sort_desc_perm.
  - intros user_id sid w l w' [-> ->]%get_user_posts_inr_inv.
    split_and!; [done| |].
    + intros p Hp. apply (subseteq_take 1000) in Hp.
      apply list_elem_of_fmap in Hp as (post & -> & Hp).
      rewrite sort_desc_perm in Hp.
      apply list_elem_of_In, filter_In in Hp as [Hin Hm].
      exists post. split_and!; [by apply list_elem_of_In| |done].
      by apply matches_field.
    + intros Hlen post Hin Hau. rewrite take_ge.
      * apply list_elem_of_fmap_2. rewrite sort_desc_perm.
        apply list_elem_of_In, filter_In. split; [by apply list_elem_of_In|].
        by apply matches_field.
      * by rewrite length_fmap, sort_desc_perm.
Qed.

End Sorting.

(** ** What each request does to the sessions, the posts and the tick *)

Lemma remove_all_sublist q l : remove_all q l `sublist_of` l.
Proof.
  unfold remove_all. induction l as [|d l IH]; simpl; [done|].
  destruct (negb _); by constructor.
Qed.

Lemma resolve_sessions_sublist sid w :
  sessions (get_user_from_session sid w).2 `sublist_of` sessions w.
Proof.
  destruct (resolve_sessions sid w) as [-> | ->];
    [done|apply remove_first_sublist].
Qed.

Lemma resolve_tick sid w :
  (tick w ≤ tick (get_user_from_session sid w).2)%nat.
Proof. unfold get_user_from_session. unfold_M. crunch; simpl; lia. Qed.

Ltac frame sid w :=
  rewrite bind_run;
  pose proof (resolve_users sid w);
  pose proof (resolve_posts sid w);
  pose proof (resolve_sessions_sublist sid w);
  pose proof (resolve_tick sid w);
  destruct (get_user_from_session sid w) as [[?|?] ?]; simpl in *;
  [try done|unfold_M; crunch].

Ltac sub_tac :=
  simpl in *;
  repeat match goal with
         | H : users _ = _ |- _ => rewrite ?H; clear H
         | H : posts _ = _ |- _ => rewrite ?H; clear H
         end;
  try done;
  try lia;
  try apply remove_all_sublist;
  try apply remove_first_sublist;
  try (etrans; [|eassumption];
       first [apply remove_all_sublist|apply remove_first_sublist]).

Lemma login_sessions c w :
  sessions (login c w).2 = sessions w ∨
  ∃ session t,
    sessions (login c w).2 = sessions w ++ [session] ∧
    session !! "session_id" = Some (VStr (uuid4 (tick w))) ∧
    is_Some (session !! "user_id") ∧
    session !! "expires_at" = Some (VStr (isoformat t)).
Proof.
  unfold login. unfold_M. crunch; eauto.
  all: right; eexists _, _; split; [done|]; by split_and!.
Qed.


Lemma login_tick c w : (tick w ≤ tick (login c w).2)%nat.
Proof. unfold login. unfold_M. crunch; simpl; lia. Qed.

Lemma login_tick_issued c w :
  sessions (login c w).2 ≠ sessions w → (tick w < tick (login c w).2)%nat.
Proof. unfold login. unfold_M. crunch; simpl; try done; intros; lia. Qed.

Lemma handle_sessions r w :
  sessions (handle r w) `sublist_of` sessions w ∨
  ∃ session t,
    sessions (handle r w) = sessions w ++ [session] ∧
    session !! "session_id" = Some (VStr (uuid4 (tick w))) ∧
    is_Some (session !! "user_id") ∧
    session !! "expires_at" = Some (VStr (isoformat t)) ∧
    (tick w < tick (handle r w))%nat.
Proof.
  destruct r; simpl.
  - left. unfold startup_event. rewrite create_default_admin_run. simpl.
    by destruct (find_first _ _).
  - destruct (login_sessions credentials w)
      as [Hs|(session & t & Hs & ? & ? & ?)].
    + left. by rewrite Hs.
    + right. exists session, t. split_and!; try done.
      apply login_tick_issued. rewrite Hs. intros Heq.
      apply (f_equal length) in Heq. rewrite length_app in Heq.
      simpl in Heq. lia.
  - left. rewrite logout_run. simpl.
    destruct (truthy_str _); [apply remove_first_sublist|done].
  - left. unfold get_current_user. frame session_id w; sub_tac.
  - left. unfold get_users. frame session_id w; sub_tac.
  - left. unfold create_user. frame session_id w; sub_tac.
  - left. unfold delete_user. frame session_id w; sub_tac.
  - left. unfold update_user_password. frame session_id w; sub_tac.
  - left. unfold create_post. frame session_id w; sub_tac.
  - left. unfold delete_post. frame session_id w; sub_tac.
Qed.

Lemma handle_tick r w : (tick w ≤ tick (handle r w))%nat.
Proof.
  destruct r; simpl.
  - unfold startup_event. rewrite create_default_admin_run. simpl.
    destruct (find_first _ _); simpl; lia.
  - apply login_tick.
  - rewrite logout_run. simpl. by destruct (truthy_str _).
  - unfold get_current_user. frame session_id w; sub_tac.
  - unfold get_users. frame session_id w; sub_tac.
  - unfold create_user. frame session_id w; sub_tac.
  - unfold delete_user. frame session_id w; sub_tac.
  - unfold update_user_password. frame session_id w; sub_tac.
  - unfold create_post. frame session_id w; sub_tac.
  - unfold delete_post. frame session_id w; sub_tac.
Qed.


(** ** Well-formed stores are kept *)

Lemma Forall_sublist_of {A} (P : A → Prop) (k l : list A) :
  k `sublist_of` l → Forall P l → Forall P k.
Proof.
  intros Hs Hl. apply Forall_forall. intros x Hx.
  eapply Forall_forall in Hl; [done|]. by eapply elem_of_sublist.
Qed.


Section IsoInvariant.

Hypothesis fromisoformat_isoformat :
  ∀ t, fromisoformat (isoformat t) = Some t.



End IsoInvariant.

Section FreshTokens.

(** [uuid4] never gives the same identifier twice. *)
Hypothesis uuid4_inj : ∀ m n, uuid4 m = uuid4 n → m = n.

Lemma handle_tokens_ok r w : tokens_ok w → tokens_ok (handle r w).
Proof.
  intros [Hnd Hk]. pose proof (handle_tick r w) as Ht.
  destruct (handle_sessions r w)
    as [Hsub|(session & t & Hs & Hid & _ & _ & Hlt)].
  - split.
    + eapply sublist_NoDup; [done|]. by apply fmap_sublist.
    + eapply Forall_sublist_of; [done|]. eapply Forall_impl; [done|].
      intros d (k & ? & ?). exists k. split; [lia|done].
  - unfold tokens_ok. rewrite Hs. split.
    + rewrite fmap_app. apply NoDup_app. split_and!; [done| |].
      * intros o (d & -> & Hd)%list_elem_of_fmap Ho%list_elem_of_singleton.
        eapply Forall_forall in Hk as (k & Hlt' & Hk); [|done].
        rewrite Hk, Hid in Ho. injection Ho as Ho%uuid4_inj. lia.
      * apply NoDup_singleton.
    + apply Forall_app. split.
      * eapply Forall_impl; [done|].
        intros d (k & ? & ?). exists k. split; [lia|done].
      * apply Forall_singleton. by exists (tick w).
Qed.

Lemma reachable_tokens_ok w : reachable w → tokens_ok w.
Proof.
  induction 1 as [|r w _ IH].
  - split; [apply NoDup_nil_2|apply Forall_nil_2].
  - by apply handle_tokens_ok.
Qed.

Lemma count_matches_unique k v l :
  NoDup ((.!! k) <$> l) → (count_matches [(k, v)] l ≤ 1)%nat.
Proof.
  unfold count_matches. induction l as [|d l IH]; [simpl; lia|].
  rewrite fmap_cons. intros [Hd Hl]%NoDup_cons. cbn [List.filter].
  destruct (matches [(k, v)] d) eqn:E; [|by apply IH].
  apply matches_field in E.
  replace (List.filter (matches [(k, v)]) l) with (@nil doc); [simpl; lia|].
  symmetry.
  assert (find_first [(k, v)] l = None) as Hnone.
  { apply find_first_None. intros x Hx. apply matches_field_false.
    intros Hxk. apply Hd. rewrite E, <- Hxk. by apply list_elem_of_fmap_2. }
  apply count_matches_None in Hnone. unfold count_matches in Hnone.
  by apply length_zero_iff_nil.
Qed.

(** X14.  If [uuid4] never gives the same identifier twice, then in every
    world the service can reach no two sessions carry the same token; so
    [logout] deletes the session of its cookie, after which the cookie
    resolves to no user and a further [logout] changes nothing. *)
Theorem tokens_are_unique w :
  reachable w →
  (∀ token,
     (count_matches [("session_id", VStr token)] (sessions w) ≤ 1)%nat) ∧
  (∀ token,
     token ≠ EmptyString →
     let w1 := (logout (Some token) w).2 in
     find_first [("session_id", VStr token)] (sessions w1) = None ∧
     get_user_from_session (Some token) w1 = (inr None, w1) ∧
     logout (Some token) w1 = (inr logged_out, w1)).
Proof.
  intros [Hnd _]%reachable_tokens_ok.
  assert (∀ token,
            (count_matches [("session_id", VStr token)] (sessions w) ≤ 1)%nat)
    as Hone.
  { intros token. by apply count_matches_unique. }
  split; [done|]. intros token Htok w1.
  assert (find_first [("session_id", VStr token)] (sessions w1) = None)
    as Hgone.
  { unfold w1. rewrite logout_run. simpl.
    rewrite bool_decide_eq_false_2 by done. simpl.
    by apply find_first_remove_first. }
  split_and!; [done|by apply resolve_absent|].
  rewrite logout_run. f_equal. simpl.
  destruct (negb _); [|done].
  rewrite remove_first_None by done. by destruct w1.
Qed.

End FreshTokens.

(** ** No internal server error *)






(** ** Created, then listed *)

(** X16.  With fewer than 1000 users stored, the record a successful
    [create_user] answers is an entry of any successful user listing made
    right after. *)
Theorem create_user_then_listed user_data sid w r w' sid' l w'' :
  create_user user_data sid w = (inr r, w') →
  get_users sid' w' = (inr l, w'') →
  (length (users w) < 1000)%nat →
  r ∈ l ∧ r !! "username" = Some (VStr (UserCreate.username user_data)).
Proof.
  intros (_ & _ & -> & ->)%create_user_inr_inv ->%get_users_inr_inv Hlen.
  split; [|done]. simpl. apply elem_of_take. exists (length (users w)).
  split; [|done].
  rewrite list_lookup_fmap, lookup_app_r, Nat.sub_diag by done.
  reflexivity.
Qed.

Section SortingAgain.

Hypothesis sort_desc_perm : ∀ key l, sort_desc key l ≡ₚ l.

(** X17.  With fewer than 1000 posts stored, the post a successful
    [create_post] answers is an entry of any successful [get_posts] made
    right after. *)
Theorem create_post_then_listed post_data sid w r w' sid' l w'' :
  create_post post_data sid w = (inr r, w') →
  get_posts sid' w' = (inr l, w'') →
  (length (posts w) < 1000)%nat →
  r ∈ l ∧ r !! "content" = Some (VStr (PostCreate.content post_data)).
Proof.
  intros (caller & id & name & _ & _ & _ & -> & ->)%create_post_inr_inv
    [_ ->]%get_posts_inr_inv Hlen.
  split; [|done]. simpl. rewrite take_ge.
  - apply list_elem_of_fmap_2. rewrite sort_desc_perm.
    apply elem_of_app. right. left.
  - rewrite length_fmap, sort_desc_perm, length_app. simpl. lia.
Qed.

End SortingAgain.

End Server.

(** ** The concrete worlds are runs of the handlers *)

Module DemoRuns.
Import Demo.

Abbreviation startup_event :=
  (startup_event clock uuid4 gensalt hashpw isoformat).
Abbreviation get_user_from_session :=
  (get_user_from_session clock fromisoformat).
Abbreviation login := (login clock uuid4 checkpw isoformat).
Abbreviation get_users := (get_users clock fromisoformat).
Abbreviation create_user :=
  (create_user clock uuid4 gensalt hashpw isoformat fromisoformat).
Abbreviation delete_user := (delete_user clock fromisoformat).
Abbreviation update_user_password :=
  (update_user_password clock gensalt hashpw fromisoformat).
Abbreviation create_post := (create_post clock uuid4 isoformat fromisoformat).
Abbreviation handle :=
  (handle clock uuid4 gensalt hashpw checkpw isoformat fromisoformat).
Abbreviation reachable :=
  (reachable clock uuid4 gensalt hashpw checkpw isoformat fromisoformat).
Abbreviation bootstrapped := (bootstrapped clock uuid4 gensalt hashpw isoformat).
Abbreviation serve :=
  (serve clock uuid4 gensalt hashpw checkpw isoformat fromisoformat).

Example run_startup : startup_event empty = (inr (), seeded).
Proof. vm_compute. reflexivity. Qed.

Example run_login_admin :
  login (UserLogin.Build "admin" "admin") seeded
  = (inr ({[ "id" := VStr "uuid-0"; "username" := VStr "admin";
             "is_admin" := VBool true ]},
          set_cookie "session_id" "uuid-4" true 86400 "lax"),
     admin_in).
Proof. vm_compute. reflexivity. Qed.

Example run_create_alice :
  (create_user (UserCreate.Build "alice" "pw123") (Some "uuid-4") admin_in).2
  = with_alice.
Proof. vm_compute. reflexivity. Qed.

Example run_login_alice :
  (login (UserLogin.Build "alice" "pw123") with_alice).2 = alice_in.
Proof. vm_compute. reflexivity. Qed.

Example run_create_post :
  (create_post (PostCreate.Build "ciao") (Some "uuid-13") alice_in).2 = busy.
Proof. vm_compute. reflexivity. Qed.

(** A session that opens the store to five requests, and the
    administrator then asking who they are until their session's last
    instant: all of the concrete worlds are worlds of the service. *)
Lemma serve_busy :
  serve [Startup;
         Login (UserLogin.Build "admin" "admin");
         CreateUser (UserCreate.Build "alice" "pw123") (Some "uuid-4");
         Login (UserLogin.Build "alice" "pw123");
         CreatePost (PostCreate.Build "ciao") (Some "uuid-13")]
    (World [] [] [] 0)
  = busy.
Proof. vm_compute. reflexivity. Qed.

Lemma reachable_seeded : reachable seeded.
Proof.
  replace seeded with (serve [Startup] (World [] [] [] 0))
    by (vm_compute; reflexivity).
  apply reachable_serve. constructor.
Qed.

Lemma reachable_admin_in : reachable admin_in.
Proof.
  replace admin_in with
    (serve [Login (UserLogin.Build "admin" "admin")] seeded)
    by (vm_compute; reflexivity).
  apply reachable_serve, reachable_seeded.
Qed.

Lemma reachable_with_alice : reachable with_alice.
Proof.
  replace with_alice with
    (serve [CreateUser (UserCreate.Build "alice" "pw123") (Some "uuid-4")]
       admin_in)
    by (vm_compute; reflexivity).
  apply reachable_serve, reachable_admin_in.
Qed.

Lemma reachable_alice_in : reachable alice_in.
Proof.
  replace alice_in with
    (serve [Login (UserLogin.Build "alice" "pw123")] with_alice)
    by (vm_compute; reflexivity).
  apply reachable_serve, reachable_with_alice.
Qed.

Lemma reachable_busy : reachable busy.
Proof.
  replace busy with
    (serve [CreatePost (PostCreate.Build "ciao") (Some "uuid-13")] alice_in)
    by (vm_compute; reflexivity).
  apply reachable_serve, reachable_alice_in.
Qed.

Lemma reachable_at_expiry : reachable at_expiry.
Proof.
  replace at_expiry with
    (serve (replicate 21 (GetCurrentUser (Some "uuid-4"))) admin_in)
    by (vm_compute; reflexivity).
  apply reachable_serve, reachable_admin_in.
Qed.

End DemoRuns.

(** ** The claims on concrete runs *)

Module Runs.
Import Demo DemoRuns.

Lemma checkpw_hashpw password salt :
  checkpw password (hashpw password salt) = true.
Proof.
  unfold checkpw, hashpw. induction password as [|a password IH]; simpl.
  - by destruct salt.
  - by destruct (Ascii.ascii_dec a a).
Qed.

Lemma resolve_checks_expiry_witness :
  get_user_from_session (Some "uuid-4") admin_in
  = (inr (Some (project ["_id"; "password"] admin_record)),
     next_tick admin_in) ∧
  get_user_from_session (Some "uuid-4")
    (World [admin_record] [admin_session] [] 30)
  = (inr None, World [admin_record] [] [] 31).
Proof.
  split.
  - refine (proj2 (resolve_checks_expiry clock fromisoformat
              "uuid-4" admin_in admin_session "104400000000" (29 * hour)
              (VStr "uuid-0") admin_record _ _ _ _ _ _) _).
    all: vm_compute; congruence.
  - destruct (proj1 (resolve_checks_expiry clock fromisoformat
                "uuid-4" (World [admin_record] [admin_session] [] 30)
                admin_session "104400000000" (29 * hour)
                (VStr "uuid-0") admin_record
                ltac:(vm_compute; congruence) eq_refl eq_refl eq_refl
                eq_refl eq_refl) ltac:(vm_compute; reflexivity))
      as (l1 & l2 & Hl & ->).
    simpl in Hl. apply (f_equal length) in Hl as Hlen.
    rewrite length_app in Hlen. simpl in Hlen.
    destruct l1, l2; simpl in Hlen; try lia. reflexivity.
Defined.

(** At the instant of expiry the code still takes the session as valid:
    the administrator is returned and the session stays in the store. *)
Lemma resolve_at_expiry_counterexample :
  reachable at_expiry ∧
  fromisoformat "104400000000" = Some (clock (tick at_expiry)) ∧
  (get_user_from_session (Some "uuid-4") at_expiry).1
  = inr (Some (project ["_id"; "password"] admin_record)) ∧
  sessions (get_user_from_session (Some "uuid-4") at_expiry).2
  = [admin_session] ∧
  ¬ (clock (tick at_expiry) ≤ clock (tick at_expiry) →
     (get_user_from_session (Some "uuid-4") at_expiry).1 = inr None).
Proof.
  split_and!; [apply reachable_at_expiry|vm_compute; reflexivity..|].
  intros H. specialize (H (Z.le_refl _)). vm_compute in H. discriminate H.
Qed.

Lemma login_failures_indistinguishable_witness :
  login (UserLogin.Build "nobody" "admin") seeded
  = (inl invalid_credentials, seeded) ∧
  login (UserLogin.Build "admin" "nimda") seeded
  = (inl invalid_credentials, seeded) ∧
  ∃ session,
    login (UserLogin.Build "admin" "admin") seeded
    = (inr ({[ "id" := VStr "uuid-0"; "username" := VStr "admin";
               "is_admin" := VBool true ]},
            set_cookie "session_id" "uuid-4" true 86400 "lax"),
       World [admin_record] [session] [] 8) ∧
    session !! "session_id" = Some (VStr "uuid-4") ∧
    session !! "user_id" = Some (VStr "uuid-0").
Proof.
  pose proof (login_failures_indistinguishable clock uuid4 gensalt hashpw
                checkpw isoformat fromisoformat checkpw_hashpw) as H.
  split_and!.
  - apply (H (UserLogin.Build "nobody" "admin") seeded). reflexivity.
  - apply (H (UserLogin.Build "admin" "nimda") seeded)
      with (user := admin_record) (h := "admin$salt-1"%string);
      reflexivity.
  - apply (H (UserLogin.Build "admin" "admin") seeded)
      with (user := admin_record) (salt := "salt-1"%string);
      reflexivity.
Defined.

Lemma logout_idempotent_witness :
  (logout (Some "uuid-4") admin_in).1 = inr logged_out ∧
  (logout (Some "uuid-4") admin_in).2 = World [admin_record] [] [] 8 ∧
  logout (Some "uuid-4") (World [admin_record] [] [] 8)
  = (inr logged_out, World [admin_record] [] [] 8).
Proof.
  pose proof (logout_idempotent (Some "uuid-4") admin_in)
    as (H1 & _ & _ & _ & _ & _ & _ & H2).
  split_and!.
  - exact H1.
  - reflexivity.
  - apply H2. vm_compute. lia.
Defined.

Lemma admin_guard_denies_witness :
  get_users (Some "uuid-13") alice_in
  = (inl access_denied, next_tick alice_in) ∧
  get_users None alice_in = (inl access_denied, alice_in).
Proof.
  split.
  - apply (admin_guard_denies clock uuid4 gensalt hashpw isoformat
             fromisoformat (Some "uuid-13") alice_in
             (Some (project ["_id"; "password"] alice_record))
             (next_tick alice_in)).
    + vm_compute. reflexivity.
    + right. eexists. split; [reflexivity|]. vm_compute. reflexivity.
  - apply (admin_guard_denies clock uuid4 gensalt hashpw isoformat
             fromisoformat None alice_in None alice_in).
    + reflexivity.
    + by left.
Defined.

(** A caller without any session is answered 403 by an admin-only
    handler, not 401, and exactly as a logged-in non-administrator is. *)
Lemma admin_guard_counterexample :
  reachable alice_in ∧
  (get_user_from_session None alice_in).1 = inr None ∧
  (get_users None alice_in).1 = inl (HTTPException 403 "Accesso negato") ∧
  ¬ (∃ detail,
       (get_users None alice_in).1 = inl (HTTPException 401 detail)) ∧
  (get_users None alice_in).1 = (get_users (Some "uuid-13") alice_in).1.
Proof.
  split_and!;
    [apply reachable_alice_in|vm_compute; reflexivity..
    | |vm_compute; reflexivity].
  intros [detail H]. vm_compute in H. discriminate H.
Qed.

Lemma delete_admin_rejected_witness :
  users (delete_user "uuid-0" (Some "uuid-4") admin_in).2 = [admin_record] ∧
  users (delete_user "uuid-0" (Some "uuid-13") alice_in).2
  = [admin_record; alice_record].
Proof.
  split.
  - apply (delete_admin_rejected clock fromisoformat "uuid-0"
             (Some "uuid-4") admin_in admin_record); reflexivity.
  - apply (delete_admin_rejected clock fromisoformat "uuid-0"
             (Some "uuid-13") alice_in admin_record); reflexivity.
Defined.

(** The administrator asking to delete the "admin" account is answered
    400, not 403. *)
Lemma delete_admin_counterexample :
  reachable admin_in ∧
  find_first [("id", VStr "uuid-0")] (users admin_in) = Some admin_record ∧
  admin_record !! "username" = Some (VStr "admin") ∧
  delete_user "uuid-0" (Some "uuid-4") admin_in
  = (inl (HTTPException 400 "Impossibile eliminare l'utente admin"),
     next_tick admin_in) ∧
  ¬ (∃ detail,
       (delete_user "uuid-0" (Some "uuid-4") admin_in).1
       = inl (HTTPException 403 detail)).
Proof.
  split_and!; [apply reachable_admin_in|vm_compute; reflexivity..|].
  intros [detail H]. vm_compute in H. discriminate H.
Qed.

Lemma sessions_of_alice token session :
  token = "uuid-13" →
  session ∈ sessions busy →
  session !! "session_id" = Some (VStr token) →
  session !! "user_id" = Some (VStr "uuid-9").
Proof.
  intros -> Hs Hsid.
  apply elem_of_cons in Hs as [->|Hs].
  { vm_compute in Hsid. discriminate Hsid. }
  apply elem_of_cons in Hs as [->|Hs]; [reflexivity|].
  by apply elem_of_nil in Hs.
Qed.

Lemma password_change_revokes_witness :
  update_user_password "uuid-9" (UserPasswordUpdate.Build "pw456")
    (Some "uuid-4") busy
  = (inr password_updated,
     World [admin_record;
            <["password" := VStr "pw456$salt-22"]> alice_record]
       [admin_session] [alice_post] 23) ∧
  get_user_from_session (Some "uuid-13")
    (World [admin_record;
            <["password" := VStr "pw456$salt-22"]> alice_record]
       [admin_session] [alice_post] 23)
  = (inr None,
     World [admin_record;
            <["password" := VStr "pw456$salt-22"]> alice_record]
       [admin_session] [alice_post] 23).
Proof.
  assert (update_user_password "uuid-9" (UserPasswordUpdate.Build "pw456")
            (Some "uuid-4") busy
          = (inr password_updated,
             World [admin_record;
                    <["password" := VStr "pw456$salt-22"]> alice_record]
               [admin_session] [alice_post] 23)) as Hrun.
  { vm_compute. reflexivity. }
  split; [exact Hrun|].
  apply (password_change_revokes clock gensalt hashpw fromisoformat
           _ _ _ _ _ _ Hrun).
  intros session. by apply sessions_of_alice.
Defined.

Lemma delete_user_cascades_witness :
  delete_user "uuid-9" (Some "uuid-4") busy
  = (inr user_deleted, World [admin_record] [admin_session] [] 22) ∧
  get_user_from_session (Some "uuid-13")
    (World [admin_record] [admin_session] [] 22)
  = (inr None, World [admin_record] [admin_session] [] 22) ∧
  login (UserLogin.Build "alice" "pw123")
    (World [admin_record] [admin_session] [] 22)
  = (inl invalid_credentials, World [admin_record] [admin_session] [] 22).
Proof.
  assert (delete_user "uuid-9" (Some "uuid-4") busy
          = (inr user_deleted, World [admin_record] [admin_session] [] 22))
    as Hrun.
  { vm_compute. reflexivity. }
  destruct (delete_user_cascades clock uuid4 gensalt hashpw checkpw
              isoformat fromisoformat _ _ _ _ _ Hrun)
    as ((target & l1 & l2 & Hl & Hl' & _ & _ & Hlogin) & _ & _ & Hres).
  split_and!; [exact Hrun| |].
  - apply Hres. intros session. by apply sessions_of_alice.
  - apply (Hlogin "alice"); [|clear Hlogin|reflexivity].
    + left. refine (bool_decide_unpack _ _). vm_compute. exact I.
    + destruct l1 as [|x [|y l1]]; simpl in Hl, Hl'.
      * injection Hl as _ <-.
        apply (f_equal (fmap (λ d : doc, d !! "username"))) in Hl'.
        vm_compute in Hl'. discriminate Hl'.
      * by injection Hl as _ <- _.
      * discriminate Hl'.
Defined.

Lemma password_never_returned_witness :
  ∃ l w',
    get_users (Some "uuid-4") alice_in = (inr l, w') ∧
    length l = 2%nat ∧
    ∀ u, u ∈ l → u !! "password" = None.
Proof.
  eexists _, _. split; [vm_compute; reflexivity|].
  split; [reflexivity|].
  destruct (password_never_returned clock uuid4 gensalt hashpw checkpw
              isoformat fromisoformat) as (_ & _ & _ & Hlist & _).
  eapply (Hlist (Some "uuid-4") alice_in). vm_compute. reflexivity.
Defined.

Lemma bootstrap_idempotent_witness :
  Nat.iter 3 bootstrapped empty = seeded ∧
  count_matches [("username", VStr "admin")]
    (users (Nat.iter 3 bootstrapped empty)) = 1%nat.
Proof.
  destruct (bootstrap_idempotent clock uuid4 gensalt hashpw isoformat empty)
    as (_ & _ & Hiter & Hcount).
  split.
  - rewrite (Hiter 2%nat). vm_compute. reflexivity.
  - apply (Hcount (Nat.le_0_l _) 2%nat).
Defined.

Lemma only_seed_is_admin_witness :
  (length (admins (users with_alice)) ≤ 1)%nat ∧
  ∃ new_user,
    users with_alice = users admin_in ++ [new_user] ∧
    new_user !! "is_admin" = Some (VBool false).
Proof.
  destruct (only_seed_is_admin clock uuid4 gensalt hashpw checkpw isoformat
              fromisoformat) as (Hcreate & _ & Hone).
  split.
  - apply Hone, reachable_with_alice.
  - destruct (Hcreate (UserCreate.Build "alice" "pw123") (Some "uuid-4")
                admin_in (delete "_id" (delete "password" alice_record))
                with_alice) as (new_user & Hu & _ & Ha & _).
    { vm_compute. reflexivity. }
    by exists new_user.
Defined.

End Runs.

(** ** The further properties on concrete runs *)

Module MoreRuns.
Import Demo DemoRuns.

Abbreviation get_current_user := (get_current_user clock fromisoformat).
Abbreviation get_posts := (get_posts clock fromisoformat sort_desc).
Abbreviation get_user_posts := (get_user_posts clock fromisoformat sort_desc).
Abbreviation delete_post := (delete_post clock fromisoformat).

Lemma fromisoformat_isoformat t : fromisoformat (isoformat t) = Some t.
Proof.
  unfold fromisoformat, isoformat. rewrite NilZero.isi.
  - simpl. f_equal. apply DecimalZ.of_to.
  - destruct t; simpl; [done| |done].
    intros [= H]. by apply DecimalPos.Unsigned.to_uint_nonnil in H.
  - destruct t; simpl; [done..|].
    intros [= H]. by apply DecimalPos.Unsigned.to_uint_nonnil in H.
Qed.

Lemma uuid4_inj m n : uuid4 m = uuid4 n → m = n.
Proof. unfold uuid4. intros H%(inj _). by apply (inj pretty). Qed.

Lemma sort_desc_perm key (l : list doc) : sort_desc key l ≡ₚ l.
Proof. apply reverse_Permutation. Qed.

(** The administrator's and alice's sessions resolve in [busy]. *)
Lemma admin_resolves w :
  w = alice_in ∨ w = busy →
  get_user_from_session (Some "uuid-4") w
  = (inr (Some (project ["_id"; "password"] admin_record)), next_tick w).
Proof. intros [-> | ->]; vm_compute; reflexivity. Qed.

Lemma alice_resolves w :
  w = alice_in ∨ w = busy →
  get_user_from_session (Some "uuid-13") w
  = (inr (Some (project ["_id"; "password"] alice_record)), next_tick w).
Proof. intros [-> | ->]; vm_compute; reflexivity. Qed.

Lemma authenticated_guard_denies_witness :
  get_posts None busy = (inl not_authenticated, busy) ∧
  get_current_user (Some "uuid-0") busy = (inl not_authenticated, busy).
Proof.
  split.
  - apply (authenticated_guard_denies clock uuid4 isoformat fromisoformat
             sort_desc None busy None busy); reflexivity.
  - apply (authenticated_guard_denies clock uuid4 isoformat fromisoformat
             sort_desc (Some "uuid-0") busy None busy); reflexivity.
Defined.

Lemma create_user_duplicate_witness :
  create_user (UserCreate.Build "alice" "other") (Some "uuid-4") busy
  = (inl username_taken, next_tick busy).
Proof.
  apply (create_user_duplicate clock uuid4 gensalt hashpw isoformat
           fromisoformat (UserCreate.Build "alice" "other") (Some "uuid-4")
           busy (project ["_id"; "password"] admin_record) (next_tick busy)
           alice_record).
  - apply admin_resolves. by right.
  - reflexivity.
  - reflexivity.
Defined.

Lemma delete_user_unknown_witness :
  delete_user "uuid-99" (Some "uuid-4") busy
  = (inl user_not_found, next_tick busy).
Proof.
  apply (delete_user_unknown clock fromisoformat "uuid-99" (Some "uuid-4")
           busy (project ["_id"; "password"] admin_record) (next_tick busy)).
  - apply admin_resolves. by right.
  - reflexivity.
  - reflexivity.
Defined.

Lemma update_user_password_unknown_witness :
  update_user_password "uuid-99" (UserPasswordUpdate.Build "pw456")
    (Some "uuid-4") busy
  = (inl user_not_found, next_tick (next_tick busy)).
Proof.
  apply (update_user_password_unknown clock gensalt hashpw fromisoformat
           "uuid-99" (UserPasswordUpdate.Build "pw456") (Some "uuid-4")
           busy (project ["_id"; "password"] admin_record) (next_tick busy)).
  - apply admin_resolves. by right.
  - reflexivity.
  - reflexivity.
Defined.

Lemma create_post_records_author_witness :
  ∃ user post,
    user ∈ users alice_in ∧ posts busy = posts alice_in ++ [post] ∧
    post !! "author_id" = user !! "id" ∧
    post !! "author_username" = user !! "username".
Proof.
  destruct (create_post_records_author clock uuid4 isoformat fromisoformat
              (PostCreate.Build "ciao") (Some "uuid-13") alice_in
              (delete "_id" alice_post) busy)
    as (user & post & Hin & _ & _ & Hp & Hid & Hn & _).
  { vm_compute. reflexivity. }
  by exists user, post.
Defined.

Lemma delete_post_rules_witness :
  (∃ l1 l2,
     posts busy = l1 ++ alice_post :: l2 ∧
     delete_post "uuid-18" (Some "uuid-13") busy
     = (inr post_deleted,
        World (users busy) (sessions busy) (l1 ++ l2) (S (tick busy)))) ∧
  delete_post "uuid-99" (Some "uuid-13") busy
  = (inl post_not_found, next_tick busy).
Proof.
  pose proof (delete_post_rules clock fromisoformat) as H.
  split.
  - apply (H "uuid-18" (Some "uuid-13") busy
             (project ["_id"; "password"] alice_record) (next_tick busy))
      with (author := VStr "uuid-9") (id := VStr "uuid-9").
    + apply alice_resolves. by right.
    + intros He. apply (f_equal (λ d : doc, d !! "id")) in He.
      vm_compute in He. discriminate He.
    + reflexivity.
    + reflexivity.
    + reflexivity.
    + by left.
  - apply (H "uuid-99" (Some "uuid-13") busy
             (project ["_id"; "password"] alice_record) (next_tick busy)).
    + apply alice_resolves. by right.
    + intros He. apply (f_equal (λ d : doc, d !! "id")) in He.
      vm_compute in He. discriminate He.
    + reflexivity.
Defined.

Lemma create_user_then_login_witness :
  ∃ identity ck w'',
    login (UserLogin.Build "alice" "pw123") with_alice
    = (inr (identity, ck), w'') ∧
    identity !! "is_admin" = Some (VBool false).
Proof.
  destruct (create_user_then_login clock uuid4 gensalt hashpw checkpw
              isoformat fromisoformat Runs.checkpw_hashpw
              (UserCreate.Build "alice" "pw123") (Some "uuid-4") admin_in
              (delete "_id" (delete "password" alice_record)) with_alice)
    as (identity & ck & w'' & Hl & _ & _ & _ & Ha).
  { vm_compute. reflexivity. }
  by exists identity, ck, w''.
Defined.

Lemma startup_then_admin_login_witness :
  ∃ identity ck w',
    login (UserLogin.Build "admin" "admin") (startup_event empty).2
    = (inr (identity, ck), w') ∧
    identity !! "username" = Some (VStr "admin") ∧
    identity !! "is_admin" = Some (VBool true).
Proof.
  apply (startup_then_admin_login clock uuid4 gensalt hashpw checkpw
           isoformat Runs.checkpw_hashpw empty).
  reflexivity.
Defined.

Lemma password_change_then_login_witness :
  ∃ w',
    update_user_password "uuid-9" (UserPasswordUpdate.Build "pw456")
      (Some "uuid-4") busy = (inr password_updated, w') ∧
    (∃ ck w'',
       login (UserLogin.Build "alice" "pw456") w'
       = (inr ({[ "id" := VStr "uuid-9"; "username" := VStr "alice";
                  "is_admin" := VBool false ]}, ck), w'')) ∧
    login (UserLogin.Build "alice" "pw123") w'
    = (inl invalid_credentials, w').
Proof.
  eexists. split; [vm_compute; reflexivity|].
  destruct (password_change_then_login clock uuid4 gensalt hashpw checkpw
              isoformat fromisoformat Runs.checkpw_hashpw
              "uuid-9" (UserPasswordUpdate.Build "pw456") (Some "uuid-4")
              busy password_updated
              (World [admin_record;
                      <["password" := VStr "pw456$salt-22"]> alice_record]
                 [admin_session] [alice_post] 23)
              alice_record "alice" (VBool false))
    as [Hnew Hold].
  - vm_compute. reflexivity.
  - reflexivity.
  - reflexivity.
  - reflexivity.
  - right. apply reachable_busy.
  - split; [exact Hnew|]. apply Hold. vm_compute. reflexivity.
Defined.

Lemma login_then_resolve_witness :
  get_user_from_session (Some "uuid-4") admin_in
  = (inr (Some (project ["_id"; "password"] admin_record)),
     next_tick admin_in).
Proof.
  apply (login_then_resolve clock uuid4 checkpw isoformat fromisoformat
           fromisoformat_isoformat (UserLogin.Build "admin" "admin") seeded
           {[ "id" := VStr "uuid-0"; "username" := VStr "admin";
              "is_admin" := VBool true ]}
           (set_cookie "session_id" "uuid-4" true 86400 "lax")
           admin_in admin_record).
  - apply run_login_admin.
  - reflexivity.
  - intros id Hid. vm_compute in Hid. injection Hid as <-. reflexivity.
  - vm_compute. discriminate.
  - reflexivity.
  - vm_compute. discriminate.
Defined.

Lemma listings_return_stored_posts_witness :
  ∃ l,
    get_user_posts "uuid-9" (Some "uuid-4") busy = (inr l, next_tick busy) ∧
    delete "_id" alice_post ∈ l.
Proof.
  destruct (listings_return_stored_posts clock fromisoformat sort_desc
              sort_desc_perm) as [_ Huser].
  eexists. split; [vm_compute; reflexivity|].
  eapply (Huser "uuid-9" (Some "uuid-4") busy).
  - vm_compute. reflexivity.
  - vm_compute. lia.
  - left.
  - reflexivity.
Defined.

Lemma tokens_are_unique_witness :
  (count_matches [("session_id", VStr "uuid-13")] (sessions busy) ≤ 1)%nat ∧
  get_user_from_session (Some "uuid-13") (logout (Some "uuid-13") busy).2
  = (inr None, (logout (Some "uuid-13") busy).2).
Proof.
  destruct (tokens_are_unique clock uuid4 gensalt hashpw checkpw isoformat
              fromisoformat uuid4_inj busy reachable_busy) as [Hone Hout].
  split; [apply Hone|]. by apply Hout.
Defined.


Lemma create_user_then_listed_witness :
  ∃ l w'',
    get_users (Some "uuid-4") with_alice = (inr l, w'') ∧
    delete "_id" (delete "password" alice_record) ∈ l.
Proof.
  eexists _, _. split; [vm_compute; reflexivity|].
  eapply (create_user_then_listed clock uuid4 gensalt hashpw isoformat
            fromisoformat (UserCreate.Build "alice" "pw123") (Some "uuid-4")
            admin_in _ with_alice (Some "uuid-4")).
  - vm_compute. reflexivity.
  - vm_compute. reflexivity.
  - vm_compute. lia.
Defined.

Lemma create_post_then_listed_witness :
  ∃ l w'',
    get_posts (Some "uuid-4") busy = (inr l, w'') ∧
    delete "_id" alice_post ∈ l.
Proof.
  eexists _, _. split; [vm_compute; reflexivity|].
  eapply (create_post_then_listed clock uuid4 isoformat fromisoformat
            sort_desc sort_desc_perm (PostCreate.Build "ciao")
            (Some "uuid-13") alice_in _ busy (Some "uuid-4")).
  - vm_compute. reflexivity.
  - vm_compute. reflexivity.
  - vm_compute. lia.
Defined.

End MoreRuns.
